(** * Dozemate backend: telemetry ingestion and device activation

    A shallow embedding of the line decoder ([parseUartLine]), the
    request-based ingestion route ([POST /ingest]), the pub/sub message
    handler ([client.on("message")]), the activation route
    ([PUT /activate/:deviceId]) and the controller's [setInactiveDevice],
    followed by the properties of the specification that concern them.

    A handler is a function from the collections and the tracker map
    ([World]) to its answer and the [World] it leaves.  The readings of
    the clock are arguments.  An exception that the handler's [try/catch]
    catches ends the handler with the [World] reached so far.  Payloads
    are the values [JSON.parse] returns; strings are sequences of 8-bit
    characters. *)

From Stdlib Require Import ZArith QArith String Ascii List Bool Lia HexString.
From stdpp Require Import base option gmap strings list.
Import ListNotations.
Local Open Scope string_scope.

(** ** JavaScript values *)

(** A JavaScript number.  The handlers never do arithmetic on payload
    numbers, they only compare them, so a finite double is represented by
    the rational it denotes; [-0] and [+0] are both [Fin 0] (the code
    cannot tell them apart: it uses [===], [<], [>] and truthiness only). *)
Inductive jsnum : Type :=
| NaN
| PInf
| NInf
| Fin (q : Q).

(** Values reachable from a parsed JSON payload, plus [undefined] and the
    [Date] the handlers put in [base.timestamp].  Objects are finite maps
    from own property names to values. *)
#[warnings="-register-all"]
Inductive jsval : Type :=
| JUndef
| JNull
| JBool (b : bool)
| JNum (n : jsnum)
| JStr (s : string)
| JDate (t : Z)
| JArr (l : list jsval)
| JObj (o : gmap string jsval).

Definition jnum (z : Z) : jsval := JNum (Fin (inject_Z z)).

(** [a === b] on numbers: [NaN] equals nothing. *)
Definition num_eq (a b : jsnum) : bool :=
  match a, b with
  | Fin p, Fin q => Qeq_bool p q
  | PInf, PInf => true
  | NInf, NInf => true
  | _, _ => false
  end.

(** [a < b] on numbers: false as soon as one side is [NaN]. *)
Definition num_lt (a b : jsnum) : bool :=
  match a, b with
  | NaN, _ | _, NaN => false
  | Fin p, Fin q => negb (Qle_bool q p)
  | NInf, NInf => false
  | NInf, _ => true
  | _, NInf => false
  | PInf, _ => false
  | Fin _, PInf => true
  end.

(** Truthiness, as [||], [!] and [if] use it. *)
Definition truthy (v : jsval) : bool :=
  match v with
  | JUndef | JNull => false
  | JBool b => b
  | JNum NaN => false
  | JNum (Fin q) => negb (Qeq_bool q 0)
  | JNum _ => true
  | JStr s => negb (String.eqb s "")
  | JDate _ | JArr _ | JObj _ => true
  end.

(** [a || b] *)
Definition js_or (a b : jsval) : jsval := if truthy a then a else b.

(** [v == null] *)
Definition nullish (v : jsval) : bool :=
  match v with
  | JUndef | JNull => true
  | _ => false
  end.

(** [a ?? b] *)
Definition js_coalesce (a b : jsval) : jsval := if nullish a then b else a.

(** [v.k] and [v[k]] for a value that is neither [null] nor [undefined]
    (on those the access throws, which the callers handle before they get
    here).  Only own properties of objects are modelled: inherited members
    ([length] of a string or an array, [Object.prototype]) are not. *)
Definition prop (v : jsval) (k : string) : jsval :=
  match v with
  | JObj o => default JUndef (o !! k)
  | _ => JUndef
  end.

(** [v?.k] *)
Definition prop_opt (v : jsval) (k : string) : jsval :=
  if nullish v then JUndef else prop v k.

(** [a === b].  Arrays, objects and dates are compared by identity; every
    message is parsed afresh and every literal allocates, so a value kept
    from an earlier message is never identical to one of the current
    message. *)
Definition strict_eq (a b : jsval) : bool :=
  match a, b with
  | JUndef, JUndef => true
  | JNull, JNull => true
  | JBool x, JBool y => Bool.eqb x y
  | JNum x, JNum y => num_eq x y
  | JStr x, JStr y => String.eqb x y
  | _, _ => false
  end.

(** [Object.assign(target, src)] and [{...target, ...src}]: the
    properties of [src] win. *)
Definition Object_assign (target src : gmap string jsval) : gmap string jsval :=
  src ∪ target.

(** The conversions of the language that the embedding does not spell out:
    the numeric-literal grammar behind [Number(s)], and [ToPrimitive] on
    arrays and objects. *)
Class JsEngine : Type := {
  (** [Number(s)] for a string [s] *)
  StringToNumber : string → jsnum;
  (** [Number(v)] for an array or an object [v] *)
  ObjectToNumber : jsval → jsnum;
  (** [String(v)] for a value that is not a string *)
  ValueToString : jsval → string;
}.

(** ** Strings *)

(** White space removed by [trim] (the ASCII part of it). *)
Definition is_space (c : ascii) : bool :=
  let n := nat_of_ascii c in
  Nat.eqb n 32 || (Nat.leb 9 n && Nat.leb n 13).

Fixpoint trimStart (s : string) : string :=
  match s with
  | EmptyString => EmptyString
  | String c s' => if is_space c then trimStart s' else s
  end.

Fixpoint trimEnd (s : string) : string :=
  match s with
  | EmptyString => EmptyString
  | String c s' =>
      match trimEnd s' with
      | EmptyString => if is_space c then EmptyString else String c EmptyString
      | r => String c r
      end
  end.

(** [s.trim()] *)
Definition trim (s : string) : string := trimEnd (trimStart s).

(** [s.split(sep)] for a one-character separator; never empty. *)
Fixpoint split (sep : ascii) (s : string) : list string :=
  match s with
  | EmptyString => [EmptyString]
  | String c s' =>
      if Ascii.eqb c sep then EmptyString :: split sep s'
      else match split sep s' with
           | p :: ps => String c p :: ps
           | [] => [String c EmptyString]
           end
  end.

Definition upper_char (c : ascii) : ascii :=
  let n := nat_of_ascii c in
  if Nat.leb 97 n && Nat.leb n 122 then ascii_of_nat (n - 32) else c.

(** [s.toUpperCase()] on ASCII letters. *)
Fixpoint toUpperCase (s : string) : string :=
  match s with
  | EmptyString => EmptyString
  | String c s' => String (upper_char c) (toUpperCase s')
  end.

(** [s.includes(sub)] *)
Fixpoint includes (sub s : string) : bool :=
  String.prefix sub s ||
  match s with
  | EmptyString => false
  | String _ s' => includes sub s'
  end.

(** [xs.join(sep)] *)
Fixpoint join (sep : string) (xs : list string) : string :=
  match xs with
  | [] => ""
  | [x] => x
  | x :: rest => x +:+ sep +:+ join sep rest
  end.

(** ** Line decoder ([routes/http.js]) *)

Section Decoder.
Context {E : JsEngine}.

(** [Number(v)] *)
Definition ToNumber (v : jsval) : jsnum :=
  match v with
  | JUndef => NaN
  | JNull => Fin 0
  | JBool b => if b then Fin 1 else Fin 0
  | JNum n => n
  | JStr s => StringToNumber s
  | JDate t => Fin (inject_Z t)
  | JArr _ | JObj _ => ObjectToNumber v
  end.

(** [String(v)] *)
Definition ToString (v : jsval) : string :=
  match v with
  | JStr s => s
  | _ => ValueToString v
  end.

(** [const toNum = (v) => { const n = Number(v);
      return Number.isFinite(n) ? n : undefined; }] *)
Definition toNum (v : jsval) : jsval :=
  match ToNumber v with
  | Fin q => JNum (Fin q)
  | _ => JUndef
  end.

(** [parts[i]] *)
Definition part (parts : list string) (i : nat) : jsval :=
  match parts !! i with
  | Some s => JStr s
  | None => JUndef
  end.

(** [parts[1] !== undefined ? Number(parts[1]) === 1 : undefined] *)
Definition flag (parts : list string) : jsval :=
  match part parts 1 with
  | JUndef => JUndef
  | v => JBool (num_eq (ToNumber v) (Fin 1))
  end.

Record parsed : Type := {
  patch : gmap string jsval;    (* flat fields *)
  metrics : gmap string jsval;  (* HealthData.metrics *)
  signals : gmap string jsval;  (* HealthData.signals *)
  raw : string;
}.

(** [line.trim().split(",").map(s => s.trim())] *)
Definition line_parts (line : string) : list string :=
  map trim (split "," (trim line)).

(** [(parts[0] || "").toUpperCase()] *)
Definition line_tag (parts : list string) : string :=
  toUpperCase (hd "" parts).

(** The sixteen values of an [HRV_DATA] line, in wire order; the value
    of a name sits at [parts[i + 1]] for its index [i] here. *)
Definition hrv_names : list string :=
  [ "mean_rr"; "sdnn"; "rmssd"; "pnn50"; "hr_median"; "rr_tri_index";
    "tin_rmssd"; "sd1"; "sd2"; "lf"; "hf"; "lfhf"; "sample_entropy";
    "sd1sd2"; "sns_index"; "pns_index" ].

(** The object literal handed to [Object.assign(metrics, ...)]. *)
Definition hrv_object (parts : list string) : gmap string jsval :=
  list_to_map
    [ ("mean_rr", toNum (part parts 1));
      ("sdnn", toNum (part parts 2));
      ("rmssd", toNum (part parts 3));
      ("pnn50", toNum (part parts 4));
      ("hr_median", toNum (part parts 5));
      ("rr_tri_index", toNum (part parts 6));
      ("tin_rmssd", toNum (part parts 7));
      ("sd1", toNum (part parts 8));
      ("sd2", toNum (part parts 9));
      ("lf", toNum (part parts 10));
      ("hf", toNum (part parts 11));
      ("lfhf", toNum (part parts 12));
      ("sample_entropy", toNum (part parts 13));
      ("sd1sd2", toNum (part parts 14));
      ("sns_index", toNum (part parts 15));
      ("pns_index", toNum (part parts 16)) ].

(** [if (metrics.k !== undefined) patch.flat = metrics.k] *)
Definition promote (m : gmap string jsval) (k flat : string)
    (p : gmap string jsval) : gmap string jsval :=
  match prop (JObj m) k with
  | JUndef => p
  | v => <[flat := v]> p
  end.

(** [function parseUartLine(line)]; [None] is the [null] it returns on
    an empty line. *)
Definition parseUartLine (line : string) : option parsed :=
  if String.eqb line "" then None else
  let parts := line_parts line in
  let tag := line_tag parts in
  let result p m s := Some {| patch := p; metrics := m; signals := s; raw := line |} in
  if String.eqb tag "HRV_DATA" then
    if Nat.leb 17 (length parts) then
      let m := Object_assign ∅ (hrv_object parts) in
      result (promote m "hr_median" "heartRate" (promote m "rmssd" "hrv" ∅)) m ∅
    else result ∅ ∅ ∅
  else if String.eqb tag "TEMP_HUM" then
    result (<["humidity" := toNum (part parts 2)]>
             (<["temperature" := toNum (part parts 1)]> ∅)) ∅ ∅
  else if String.eqb tag "HR" then
    result (<["heartRate" := toNum (part parts 1)]> ∅) ∅ ∅
  else if String.eqb tag "RES" then
    result (<["respiration" := toNum (part parts 1)]> ∅) ∅ ∅
  else if String.eqb tag "STRESS" then
    result (<["stress" := toNum (part parts 1)]> ∅) ∅ ∅
  else if String.eqb tag "RR" then
    result ∅ (<["sample_entropy" := JUndef]> ∅) ∅
  else if String.eqb tag "MOTION" then
    result ∅ ∅ (<["motion" := flag parts]> ∅)
  else if String.eqb tag "PRESENCE" then
    result ∅ ∅ (<["presence" := flag parts]> ∅)
  else if String.eqb tag "ACT" || String.eqb tag "ACTIVITY" then
    result ∅ ∅ (<["activity" := toNum (part parts 1)]> ∅)
  else if String.eqb tag "BAT" then
    result ∅ ∅ (<["battery" := toNum (part parts 1)]> ∅)
  else if String.eqb tag "MIC" then
    result ∅ ∅ (<["mic" := toNum (part parts 1)]> ∅)
  else result ∅ ∅ ∅.

(** A field is numeric when [toNum] keeps it. *)
Definition numeric (v : jsval) : Prop := ∃ q, toNum v = JNum (Fin q).

End Decoder.

(** ** Documents and collections *)

(** [mongoose.Types.ObjectId]: the identifiers of documents, the cast of a
    string to one ([new ObjectId(s)], and the cast Mongoose applies to a
    query filter), and [id.toString()]. *)
Class Bson : Type := {
  ObjectId : Type;
  ObjectId_eq_dec :: EqDecision ObjectId;
  ObjectId_countable :: Countable ObjectId;
  castObjectId : string → option ObjectId;
  hexString : ObjectId → string;
  castObjectId_hexString : ∀ o, castObjectId (hexString o) = Some o;
  castObjectId_empty : castObjectId "" = None;
}.

(** [status] of [models/Device.js]:
    [enum: ["active", "inactive", "under maintenance"]]. *)
Inductive Status : Type :=
| active
| inactive
| under_maintenance.

#[global] Instance Status_eq_dec : EqDecision Status.
Proof. solve_decision. Defined.

(** What a route answers: [res.status(code).json({ message })], or the
    [catch] block's 500 whose message is the exception's. *)
Inductive Response : Type :=
| Json (code : nat) (message : string)
| ServerError.

(** The double-quote character of the messages. *)
Definition dquote : string := String (ascii_of_nat 34) EmptyString.

(** Dedupe mode of a rule: [rule.mode === "onchange"] or anything else. *)
Inductive Mode : Type :=
| always
| onchange.

(** Modelled from the spec: [config/metricSpec] is not among the sources.
    A rule has an optional minimum, an optional maximum and a dedupe
    mode. *)
Record Rule : Type := {
  rule_min : option Q;
  rule_max : option Q;
  rule_mode : Mode;
}.

(** The readings of the clock one handler takes: [new Date()] for
    [lastActiveAt], [new Date()] for the record's [timestamp], and
    [Date.now()] at the retraction (milliseconds). *)
Record Clock : Type := {
  t_active : Z;
  t_stamp : Z;
  t_retract : Z;
}.

(** Per device, in process memory:
    [const presenceState = new Map(); // deviceId -> {lastPresence, lastValues:{}}]
    (the declaration stands in [controllers/deviceManagementController.js];
    the pub/sub handler uses the map under that name). *)
Record Tracker : Type := {
  lastPresence : jsnum;
  lastValues : gmap string jsval;
}.

(** A stored health record: its identity and the object given to
    [new HealthData({...})]. *)
Record HealthDoc : Type := {
  h_deviceId : string;
  h_timestamp : Z;
  h_doc : gmap string jsval;
}.

Record SleepDoc : Type := {
  s_deviceId : string;
  s_timestamp : Z;
  s_sleepQuality : jsval;
  s_duration : jsval;
}.

Section Collections.
Context {B : Bson}.

(** [models/Device.js], the paths the handlers read or write. *)
Record Device : Type := {
  _id : ObjectId;
  deviceId : string;
  deviceType : string;
  status : Status;
  profileId : option ObjectId;
  userId : option ObjectId;
  lastActiveAt : option Z;
}.

(** [models/User], the two notions of active device. *)
Record User : Type := {
  activeDevice : option ObjectId;
  activeDevices : list ObjectId;
}.

(** [models/Profile]; [identifier] is empty when the document has
    none. *)
Record Profile : Type := {
  identifier : string;
}.

(** The collections and the tracker map.  [devices] is keyed by
    [deviceId], which the schema declares [unique]: the document found
    under a [deviceId] is the one its [_id] designates.  The health
    collection is in insertion order. *)
Record World : Type := {
  devices : gmap string Device;
  users : gmap ObjectId User;
  profiles : gmap ObjectId Profile;
  healthData : list HealthDoc;
  sleepData : list SleepDoc;
  presenceState : gmap string Tracker;
}.

Definition with_devices (f : gmap string Device → gmap string Device) (w : World) : World :=
  {| devices := f (devices w); users := users w; profiles := profiles w;
     healthData := healthData w; sleepData := sleepData w;
     presenceState := presenceState w |}.

Definition with_users (f : gmap ObjectId User → gmap ObjectId User) (w : World) : World :=
  {| devices := devices w; users := f (users w); profiles := profiles w;
     healthData := healthData w; sleepData := sleepData w;
     presenceState := presenceState w |}.

Definition with_healthData (f : list HealthDoc → list HealthDoc) (w : World) : World :=
  {| devices := devices w; users := users w; profiles := profiles w;
     healthData := f (healthData w); sleepData := sleepData w;
     presenceState := presenceState w |}.

Definition with_sleepData (f : list SleepDoc → list SleepDoc) (w : World) : World :=
  {| devices := devices w; users := users w; profiles := profiles w;
     healthData := healthData w; sleepData := f (sleepData w);
     presenceState := presenceState w |}.

Definition with_presenceState
    (f : gmap string Tracker → gmap string Tracker) (w : World) : World :=
  {| devices := devices w; users := users w; profiles := profiles w;
     healthData := healthData w; sleepData := sleepData w;
     presenceState := f (presenceState w) |}.

Definition set_status (s : Status) (d : Device) : Device :=
  {| _id := _id d; deviceId := deviceId d; deviceType := deviceType d;
     status := s; profileId := profileId d; userId := userId d;
     lastActiveAt := lastActiveAt d |}.

Definition set_profileId (p : option ObjectId) (d : Device) : Device :=
  {| _id := _id d; deviceId := deviceId d; deviceType := deviceType d;
     status := status d; profileId := p; userId := userId d;
     lastActiveAt := lastActiveAt d |}.

Definition set_lastActiveAt (t : option Z) (d : Device) : Device :=
  {| _id := _id d; deviceId := deviceId d; deviceType := deviceType d;
     status := status d; profileId := profileId d; userId := userId d;
     lastActiveAt := t |}.

Definition set_activeDevice (a : option ObjectId) (u : User) : User :=
  {| activeDevice := a; activeDevices := activeDevices u |}.

Definition set_activeDevices (l : list ObjectId) (u : User) : User :=
  {| activeDevice := activeDevice u; activeDevices := l |}.

(** [Device.findByIdAndUpdate(device._id, { status: "active",
      lastActiveAt: new Date() })] for the [device] found under [id]. *)
Definition mark_active (id : string) (now : Z) (w : World) : World :=
  with_devices (alter (λ d, set_lastActiveAt (Some now) (set_status active d)) id) w.

(** ** Device activation ([PUT /activate/:deviceId]) *)

(** What [updateMany({ profileId }, { $set: { status: "inactive" } })]
    makes of one device. *)
Definition deactivated (pid : ObjectId) (d : Device) : Device :=
  if decide (profileId d = Some pid) then set_status inactive d else d.

(** [Device.updateMany({ profileId }, { $set: { status: "inactive" } })] *)
Definition deactivate_profile (pid : ObjectId) (w : World) : World :=
  with_devices (fmap (deactivated pid)) w.

(** Mongoose's change tracking: [doc.path = v] marks the path modified
    only when [v] differs from the value the loaded document holds
    ([None]: not modified), and [doc.save()] sends a [$set] of the modified
    paths only. *)
Definition assign {A} `{EqDecision A} (loaded new : A) : option A :=
  if decide (new = loaded) then None else Some new.

Definition write {A} (modified : option A) (set : A → Device → Device)
    (d : Device) : Device :=
  match modified with
  | Some v => set v d
  | None => d
  end.

(** [device.status = "active"; device.profileId = new ObjectId(profileId);
     device.lastActiveAt = new Date(); await device.save();]
    on the [device] loaded earlier by [findOne] under [id], which still
    holds the values it was loaded with, whatever [updateMany] has done to
    the stored document since: [save] writes the modified paths, and only
    those, to the stored document. *)
Definition save_activated (id : string) (device : Device) (pid : ObjectId) (now : Z)
    (w : World) : World :=
  with_devices
    (alter (λ d,
       write (assign (lastActiveAt device) (Some now)) set_lastActiveAt
         (write (assign (profileId device) (Some pid)) set_profileId
            (write (assign (status device) active) set_status d)))
       id) w.

(** [User.findByIdAndUpdate(device.userId,
      { $set: { activeDevice: new ObjectId(device._id) } })] *)
Definition point_user (device : Device) (w : World) : World :=
  match userId device with
  | Some u => with_users (alter (set_activeDevice (Some (_id device))) u) w
  | None => w
  end.

(** [profile?.identifier || fallback] after [Profile.findById(pid)] *)
Definition profile_label (w : World) (pid : option ObjectId) (fallback : string) : string :=
  match pid ≫= (λ p, profiles w !! p) with
  | Some p => if String.eqb (identifier p) "" then fallback else identifier p
  | None => fallback
  end.

Definition already_active_on (id label : string) : string :=
  "Device " +:+ id +:+ " is already active on profile " +:+ dquote +:+ label +:+ dquote.

Definition activated_on (id label : string) : string :=
  "Device " +:+ id +:+ " activated on profile " +:+ dquote +:+ label +:+ dquote.

(** [device.status === "active" && device.profileId &&
     device.profileId.toString() !== profileId] *)
Definition other_profile (device : Device) (pid : string) : option ObjectId :=
  match status device, profileId device with
  | active, Some p => if String.eqb (hexString p) pid then None else Some p
  | _, _ => None
  end.

(** The route handler, run without interruption: its answer and the
    collections it leaves.  [id] is [req.params.deviceId], [pid] is
    [req.query.profileId], [now] the [new Date()] it takes. *)
Definition activate (now : Z) (id pid : string) (w : World) : Response * World :=
  if String.eqb pid "" then (Json 400 "profileId required", w) else
  match devices w !! id with
  | None => (Json 404 "Device not found", w)
  | Some device =>
      match other_profile device pid with
      | Some p => (Json 409 (already_active_on id (profile_label w (Some p) (hexString p))), w)
      | None =>
          match castObjectId pid with
          | None => (ServerError, w)
          | Some target =>
              let w1 := deactivate_profile target w in
              let w2 := save_activated id device target now w1 in
              let w3 := point_user device w2 in
              (Json 200 (activated_on id (profile_label w3 (Some target) pid)), w3)
          end
      end
  end.

(** The same handler as the event loop runs it: between two [await]s
    other handlers may run, so each database call is one step, and the
    handler keeps the [device] it loaded in between. *)
Inductive Activation : Type :=
| AwaitFindOne
| AwaitActiveProfile (device : Device) (p : ObjectId)
| AwaitUpdateMany (device : Device)
| AwaitSave (device : Device) (target : ObjectId)
| AwaitUserUpdate (device : Device) (target : ObjectId)
| AwaitNewProfile (target : ObjectId)
| Responded (r : Response).

Definition activate_start (pid : string) : Activation :=
  if String.eqb pid "" then Responded (Json 400 "profileId required") else AwaitFindOne.

Definition activate_step (now : Z) (id pid : string) (a : Activation) (w : World)
    : Activation * World :=
  match a with
  | AwaitFindOne =>
      match devices w !! id with
      | None => (Responded (Json 404 "Device not found"), w)
      | Some device =>
          match other_profile device pid with
          | Some p => (AwaitActiveProfile device p, w)
          | None => (AwaitUpdateMany device, w)
          end
      end
  | AwaitActiveProfile device p =>
      (Responded (Json 409 (already_active_on id (profile_label w (Some p) (hexString p)))), w)
  | AwaitUpdateMany device =>
      match castObjectId pid with
      | None => (Responded ServerError, w)
      | Some target => (AwaitSave device target, deactivate_profile target w)
      end
  | AwaitSave device target =>
      (AwaitUserUpdate device target, save_activated id device target now w)
  | AwaitUserUpdate device target => (AwaitNewProfile target, point_user device w)
  | AwaitNewProfile target =>
      (Responded (Json 200 (activated_on id (profile_label w (Some target) pid))), w)
  | Responded r => (Responded r, w)
  end.

(** Two activation requests in flight; the schedule says whose step
    runs next ([false]: the first request, [true]: the second). *)
Record Request : Type := {
  req_now : Z;
  req_deviceId : string;
  req_profileId : string;
}.

Definition request_step (r : Request) : Activation → World → Activation * World :=
  activate_step (req_now r) (req_deviceId r) (req_profileId r).

Fixpoint interleave (r1 r2 : Request) (schedule : list bool)
    (a1 a2 : Activation) (w : World) : Activation * Activation * World :=
  match schedule with
  | [] => (a1, a2, w)
  | false :: rest =>
      let '(a1', w') := request_step r1 a1 w in interleave r1 r2 rest a1' a2 w'
  | true :: rest =>
      let '(a2', w') := request_step r2 a2 w in interleave r1 r2 rest a1 a2' w'
  end.

Definition run_both (r1 r2 : Request) (schedule : list bool) (w : World)
    : Activation * Activation * World :=
  interleave r1 r2 schedule
    (activate_start (req_profileId r1)) (activate_start (req_profileId r2)) w.

(** [device.status === "active"] for a device bound to [pid]; what
    [GET /mapping/:profileId] reports as [active]. *)
Definition active_for (pid : ObjectId) (w : World) (id : string) : Prop :=
  ∃ d, devices w !! id = Some d ∧ profileId d = Some pid ∧ status d = active.

(** At most one device is active for the profile. *)
Definition exclusive (pid : ObjectId) (w : World) : Prop :=
  ∀ i j, active_for pid w i → active_for pid w j → i = j.

(** ** Deactivation ([controllers/deviceManagementController.js]) *)

Definition set_as_inactive (id : string) : string :=
  "Device " +:+ id +:+ " set as inactive".

(** [exports.setInactiveDevice]; [requester] is [req.user.userId],
    [id] is [req.params.deviceId]. *)
Definition setInactiveDevice (requester : ObjectId) (id : string) (w : World)
    : Response * World :=
  if String.eqb id "" then (Json 400 "Device ID is required", w) else
  match users w !! requester with
  | None => (Json 404 "User not found", w)
  | Some user =>
      match devices w !! id with
      | None => (Json 404 "Device not found", w)
      | Some found =>
          let w1 := with_devices (alter (set_status inactive) id) w in
          let device := set_status inactive found in
          let kept := filter (λ i, hexString i ≠ hexString (_id device)) (activeDevices user) in
          let w2 := with_users (alter (set_activeDevices kept) requester) w1 in
          (Json 200 (set_as_inactive (deviceId device)), w2)
      end
  end.

End Collections.

(** ** Ingestion ([routes/http.js] and the pub/sub handler) *)

Section Ingestion.
Context {E : JsEngine} {B : Bson}.

(** Modelled from the spec: [config/metricSpec] is not among the
    sources.  [SPEC deviceType] lists [Object.entries] of
    [SPEC[deviceType]?.params || {}]: the rules of the device type by
    metric name, none when the type has no entry. *)
Variable SPEC : string → list (string * Rule).

(** [{ ...v }] for an object; a string or an array in that place (whose
    spread lists its indices) is not modelled. *)
Definition spread (v : jsval) : gmap string jsval :=
  match v with
  | JObj o => o
  | _ => ∅
  end.

(** The [signals] literal of [base]. *)
Definition base_signals (data : jsval) : gmap string jsval :=
  let s := prop data "signals" in
  list_to_map
    [ ("motion", js_coalesce (prop_opt s "motion") JNull);
      ("presence", js_coalesce (prop_opt s "presence") JNull);
      ("battery", js_coalesce (prop_opt s "battery") JNull);
      ("activity", js_coalesce (prop_opt s "activity") JNull);
      ("mic", js_coalesce (prop_opt s "mic") JNull);
      ("rrIntervals", js_or (prop_opt s "rrIntervals") (JArr []));
      ("rawWaveform", js_or (prop_opt s "rawWaveform") (JArr [])) ].

(** [const base = { deviceId, timestamp: new Date(), ... }], the same
    literal in both handlers. *)
Definition base_record (id : string) (now : Z) (data : jsval) : gmap string jsval :=
  list_to_map
    [ ("deviceId", JStr id);
      ("timestamp", JDate now);
      ("temperature", js_or (prop data "temperature") (jnum 0));
      ("humidity", js_or (prop data "humidity") (jnum 0));
      ("iaq", js_or (prop data "iaq") (jnum 0));
      ("eco2", js_or (prop data "eco2") (jnum 0));
      ("tvoc", js_or (prop data "tvoc") (jnum 0));
      ("etoh", js_or (prop data "etoh") (jnum 0));
      ("hrv", js_or (prop data "hrv") (jnum 0));
      ("stress", js_or (prop data "stress") (jnum 0));
      ("respiration",
        js_or (js_or (prop data "resp") (prop data "respiration")) (jnum 0));
      ("heartRate",
        js_or (js_or (prop data "hr") (prop data "heartRate")) (jnum 0));
      ("metrics", JObj (spread (js_or (prop data "metrics") (JObj ∅))));
      ("signals", JObj (base_signals data));
      ("raw", js_or (prop data "raw") (JObj ∅)) ].

(** [Array.isArray(data.lines) ? data.lines : (data.line ? [data.line] : [])] *)
Definition lines_of (data : jsval) : list jsval :=
  match prop data "lines" with
  | JArr l => l
  | _ => if truthy (prop data "line") then [prop data "line"] else []
  end.

Record Merged : Type := {
  mergedPatch : gmap string jsval;
  mergedMetrics : gmap string jsval;
  mergedSignals : gmap string jsval;
  raws : list string;
}.

(** The body of [for (const ln of lines)]. *)
Definition merge_line (m : Merged) (ln : jsval) : Merged :=
  match parseUartLine (ToString ln) with
  | None => m
  | Some p =>
      {| mergedPatch := Object_assign (mergedPatch m) (patch p);
         mergedMetrics := Object_assign (mergedMetrics m) (metrics p);
         mergedSignals := Object_assign (mergedSignals m) (signals p);
         raws := (raws m ++ [raw p])%list |}
  end.

Definition merge_lines (data : jsval) : Merged :=
  fold_left merge_line (lines_of data)
    {| mergedPatch := ∅; mergedMetrics := ∅; mergedSignals := ∅; raws := [] |}.

Definition newline : string := String (ascii_of_nat 10) EmptyString.

(** [raws.length ? raws.join("\n") : base.raw] *)
Definition merged_raw (m : Merged) (base : gmap string jsval) : jsval :=
  match raws m with
  | [] => prop (JObj base) "raw"
  | _ => JStr (join newline (raws m))
  end.

(** [new HealthData(doc).save()].  Modelled from the spec:
    [models/HealthData] is not among the sources; the storage is an
    append-only collection keyed by device and time. *)
Definition save_health (id : string) (now : Z) (doc : gmap string jsval) (w : World) : World :=
  with_healthData
    (λ h, (h ++ [ {| h_deviceId := id; h_timestamp := now; h_doc := doc |} ])%list) w.

(** [new SleepData({ deviceId, timestamp: new Date(),
      sleepQuality: data.sleepQuality || "Unknown",
      duration: data.duration || 0 }).save()] *)
Definition save_sleep (id : string) (now : Z) (data : jsval) (w : World) : World :=
  with_sleepData
    (λ s, (s ++ [ {| s_deviceId := id; s_timestamp := now;
                     s_sleepQuality := js_or (prop data "sleepQuality") (JStr "Unknown");
                     s_duration := js_or (prop data "duration") (jnum 0) |} ])%list) w.

(** *** [router.post("/ingest")] *)

(** The document [/ingest] stores for [type === "health"]. *)
Definition http_health_doc (id : string) (now : Z) (data : jsval) : gmap string jsval :=
  let base := base_record id now data in
  let m := merge_lines data in
  Object_assign (Object_assign base (mergedPatch m))
    (list_to_map
       [ ("metrics", JObj (Object_assign (spread (prop (JObj base) "metrics")) (mergedMetrics m)));
         ("signals", JObj (Object_assign (spread (prop (JObj base) "signals")) (mergedSignals m)));
         ("raw", merged_raw m base) ]).

(** The route handler; [id], [type] and [data] are the three members of
    [req.body] ([JUndef] for a missing [data]). *)
Definition ingest (clk : Clock) (id type : string) (data : jsval) (w : World)
    : Response * World :=
  if String.eqb id "" || String.eqb type "" || negb (truthy data) then
    (Json 400 "deviceId, type, and data are required", w)
  else
    match devices w !! id with
    | None => (Json 404 ("Device " +:+ id +:+ " not found"), w)
    | Some device =>
        let w1 := mark_active id (t_active clk) w in
        if String.eqb type "health" then
          (Json 200 "Health data saved via http",
           save_health id (t_stamp clk) (http_health_doc id (t_stamp clk) data) w1)
        else if String.eqb type "sleep" then
          (Json 200 "Sleep data saved", save_sleep id (t_stamp clk) data w1)
        else (Json 400 "Invalid type. Use 'health' or 'sleep'", w1)
    end.

(** *** [client.on("message")] *)

(** [presenceState.get(deviceId) || { lastPresence: 1, lastValues: {} }] *)
Definition tracker_of (w : World) (id : string) : Tracker :=
  default {| lastPresence := Fin 1; lastValues := ∅ |} (presenceState w !! id).

(** [Number(base.signals.presence ?? 1)] *)
Definition presence_of (base : gmap string jsval) : jsnum :=
  ToNumber (js_coalesce (prop (prop (JObj base) "signals") "presence") (jnum 1)).

(** [HealthData.deleteMany({ deviceId, timestamp: { $gte: cutoff } })] *)
Definition retract (id : string) (cutoff : Z) (w : World) : World :=
  with_healthData (filter (λ r, ¬ (h_deviceId r = id ∧ (cutoff ≤ h_timestamp r)%Z))) w.

(** What the rules loop accumulates: [violations], [changes], and
    [state.lastValues], which it updates in place. *)
Record Verdict : Type := {
  violations : list string;
  changes : list string;
  values : gmap string jsval;
}.

(** [const value = newData[key] ?? base[key]] *)
Definition rule_value (newData : jsval) (base : gmap string jsval) (key : string) : jsval :=
  js_coalesce (prop newData key) (prop (JObj base) key).

(** [rule.min != null && value < rule.min] *)
Definition below_min (rule : Rule) (value : jsval) : bool :=
  match rule_min rule with
  | Some lo => num_lt (ToNumber value) (Fin lo)
  | None => false
  end.

(** [rule.max != null && value > rule.max] *)
Definition above_max (rule : Rule) (value : jsval) : bool :=
  match rule_max rule with
  | Some hi => num_lt (Fin hi) (ToNumber value)
  | None => false
  end.

(** [rule.mode === "onchange" && state.lastValues[key] === value] *)
Definition unchanged (rule : Rule) (last : gmap string jsval) (key : string)
    (value : jsval) : bool :=
  match rule_mode rule with
  | onchange => strict_eq (prop (JObj last) key) value
  | always => false
  end.

(** The body of [for (const [key, rule] of Object.entries(rules))]. *)
Definition rule_step (newData : jsval) (base : gmap string jsval)
    (acc : Verdict) (entry : string * Rule) : Verdict :=
  let key := entry.1 in
  let rule := entry.2 in
  let value := rule_value newData base key in
  if nullish value then acc else
  let v1 := if below_min rule value
            then (violations acc ++ [key +:+ "<min"])%list else violations acc in
  let v2 := if above_max rule value then (v1 ++ [key +:+ ">max"])%list else v1 in
  if unchanged rule (values acc) key value then
    {| violations := v2; changes := changes acc; values := values acc |}
  else
    {| violations := v2; changes := (changes acc ++ [key])%list;
       values := <[key := value]> (values acc) |}.

Definition apply_rules (rules : list (string * Rule)) (newData : jsval)
    (base : gmap string jsval) (last : gmap string jsval) : Verdict :=
  fold_left (rule_step newData base) rules
    {| violations := []; changes := []; values := last |}.


(** The allow-list of extra metric keys. *)
Definition extra_keys : list string :=
  [ "nn50"; "sdsd"; "mxdmn"; "mo"; "amo"; "stress_ind";
    "lf_pow"; "hf_pow"; "lf_hf_ratio"; "bat"; "mean_rr"; "mean_hr";
    "snore_num"; "snore_freq"; "pressure"; "bvoc"; "co2"; "gas_percent";
    "HRrest"; "HRmax"; "VO2max"; "LactateThres"; "TemperatureSkin";
    "TemperatureEnv"; "TemperatureCore"; "ECG"; "Barometer"; "Accel";
    "Gyro"; "Magneto"; "Steps"; "Calories"; "Distance"; "BloodPressureSys";
    "BloodPressureDia"; "MuscleOxygenation"; "GSR"; "SleepStage";
    "SleepQuality"; "PostureFront"; "PostureSide"; "Fall"; "BMI";
    "BodyIndex"; "ABSI"; "Sports"; "Start"; "End"; "NormalSinusRhythm";
    "CHFAnalysis"; "Diabetes"; "TMT"; "sdnn"; "rmssd"; "pnn50"; "hr_median";
    "rr_tri_index"; "tin_rmssd"; "sd1"; "sd2"; "lf"; "hf"; "lfhf";
    "sample_entropy"; "sd1sd2"; "sns_index"; "pns_index" ].

(** [forEach(k => { if (newData[k] !== undefined) extraMetrics[k] = newData[k]; })] *)
Definition extraMetrics (newData : jsval) : gmap string jsval :=
  fold_left
    (λ acc k, match prop newData k with
              | JUndef => acc
              | v => <[k := v]> acc
              end)
    extra_keys ∅.

(** The document the pub/sub handler stores. *)
Definition mqtt_health_doc (base : gmap string jsval) (newData : jsval) : gmap string jsval :=
  let m := merge_lines newData in
  Object_assign (Object_assign base (mergedPatch m))
    (list_to_map
       [ ("metrics",
           JObj (Object_assign
                   (Object_assign (spread (js_or (prop newData "metrics") (JObj ∅)))
                      (mergedMetrics m))
                   (extraMetrics newData)));
         ("signals",
           JObj (Object_assign (spread (js_or (prop newData "signals") (JObj ∅)))
                   (mergedSignals m)));
         ("raw", merged_raw m base) ]).

Definition set_lastPresence (p : jsnum) (t : Tracker) : Tracker :=
  {| lastPresence := p; lastValues := lastValues t |}.

Definition set_lastValues (v : gmap string jsval) (t : Tracker) : Tracker :=
  {| lastPresence := lastPresence t; lastValues := v |}.

(** The presence gate: the retraction on [1 -> 0], then
    [state.lastPresence = presence; presenceState.set(deviceId, state)]. *)
Definition presence_gate (clk : Clock) (id : string) (presence : jsnum) (w : World) : World :=
  let state := tracker_of w id in
  let w1 := if num_eq (lastPresence state) (Fin 1) && num_eq presence (Fin 0)
            then retract id (t_retract clk - 12000) w else w in
  with_presenceState (insert id (set_lastPresence presence state)) w1.

(** The rule stage and what follows it, for the [device] that
    [findOne] returned and a message that passed the presence gate.  The
    loop writes [state.lastValues] of the tracker entry that is already
    in [presenceState]. *)
Definition rule_stage (clk : Clock) (id : string) (device : Device)
    (newData : jsval) (base : gmap string jsval) (w : World) : World :=
  let state := tracker_of w id in
  let verdict := apply_rules (SPEC (deviceType device)) newData base (lastValues state) in
  let w1 := with_presenceState (insert id (set_lastValues (values verdict) state)) w in
  match violations verdict, changes verdict with
  | _ :: _, _ => w1
  | [], [] => w1
  | [], _ :: _ => save_health id (t_stamp clk) (mqtt_health_doc base newData) w1
  end.

(** The branch [if (topic.includes("/health"))].  Reading a property of
    a [null] payload, or [device.deviceType] of a device that was not
    found, throws; the handler's [catch] ends the message there. *)
Definition health_message (clk : Clock) (id : string) (device : option Device)
    (newData : jsval) (w : World) : World :=
  if nullish newData then w else
  let base := base_record id (t_stamp clk) newData in
  let presence := presence_of base in
  let w1 := presence_gate clk id presence w in
  if num_eq presence (Fin 0) then w1 else
  match device with
  | None => w1
  | Some dev => rule_stage clk id dev newData base w1
  end.

(** The branch [else if (topic.includes("/sleep"))]. *)
Definition sleep_message (clk : Clock) (id : string) (data : jsval) (w : World) : World :=
  if nullish data then w else save_sleep id (t_stamp clk) data w.

(** [topic.split("/")[1]] *)
Definition topic_deviceId (topic : string) : option string :=
  split "/" topic !! 1%nat.

(** The handler of one message, from [JSON.parse]'s result [data] on (a
    payload that does not parse ends the handler before it does
    anything). *)
Definition on_message (clk : Clock) (topic : string) (data : jsval) (w : World) : World :=
  match topic_deviceId topic with
  | None => w
  | Some id =>
      if String.eqb id "" then w else
      let device := devices w !! id in
      let w1 := match device with
                | Some _ => mark_active id (t_active clk) w
                | None => w
                end in
      if includes "/health" topic then health_message clk id device data w1
      else if includes "/sleep" topic then sleep_message clk id data w1
      else w1
  end.

End Ingestion.

(** ** Topics and identifiers *)

(** [subscribeToDeviceTopics]: [`/${deviceId}/health`] and
    [`/${deviceId}/sleep`]. *)
Definition healthTopic (id : string) : string := "/" +:+ id +:+ "/health".

Definition sleepTopic (id : string) : string := "/" +:+ id +:+ "/sleep".

Definition is_digit (c : ascii) : bool :=
  let n := nat_of_ascii c in Nat.leb 48 n && Nat.leb n 57.

(** [[0-9A-F]] under the [i] flag. *)
Definition is_hex (c : ascii) : bool :=
  let n := nat_of_ascii c in
  is_digit c || (Nat.leb 65 n && Nat.leb n 70) || (Nat.leb 97 n && Nat.leb n 102).

(** [const ID_RX = /^\d{4}-[0-9A-F]{12}$/i], as [ID_RX.test(s)]. *)
Definition ID_RX (s : string) : bool :=
  let cs := list_ascii_of_string s in
  Nat.eqb (length cs) 17 &&
  forallb is_digit (take 4 cs) &&
  forallb (Ascii.eqb "-") (take 1 (drop 4 cs)) &&
  forallb is_hex (drop 5 cs).

(** [deviceId.trim().toUpperCase()], what [POST /add] stores and what
    [GET /public/available] looks up. *)
Definition normalize_id (s : string) : string := toUpperCase (trim s).

(** The tags [parseUartLine] has a [case] for. *)
Definition known_tags : list string :=
  [ "HRV_DATA"; "TEMP_HUM"; "HR"; "RES"; "STRESS"; "RR"; "MOTION"; "PRESENCE";
    "ACT"; "ACTIVITY"; "BAT"; "MIC" ].

(** The keys the final document takes from neither [base] nor the merged
    patch. *)
Definition rebuilt_keys : list string := [ "metrics"; "signals"; "raw" ].

(** ** The other handlers of the controller and of the device routes *)

Section Controller.
Context {B : Bson}.

Definition set_userId (u : option ObjectId) (d : Device) : Device :=
  {| _id := _id d; deviceId := deviceId d; deviceType := deviceType d;
     status := status d; profileId := profileId d; userId := u;
     lastActiveAt := lastActiveAt d |}.

(** [String(v)] for an id that may be [null]. *)
Definition id_string (o : option ObjectId) : string :=
  match o with
  | Some a => hexString a
  | None => "null"
  end.

Definition set_as_active (id : string) : string :=
  "Device " +:+ id +:+ " set as active".

(** [exports.setActiveDevice]; [requester] is [req.user.userId], [id]
    is [req.params.deviceId]. *)
Definition setActiveDevice (requester : ObjectId) (id : string) (w : World)
    : Response * World :=
  if String.eqb id "" then (Json 400 "Device ID is required", w) else
  match users w !! requester with
  | None => (Json 404 "User not found", w)
  | Some user =>
      match devices w !! id with
      | None => (Json 404 "Device not found", w)
      | Some found =>
          let update d := set_userId (Some requester) (set_status active d) in
          let w1 := with_devices (alter update id) w in
          let device := update found in
          if existsb (λ i, String.eqb (hexString i) (hexString (_id device)))
               (activeDevices user)
          then (Json 200 (set_as_active (deviceId device)), w1)
          else
            (Json 200 (set_as_active (deviceId device)),
             with_users
               (alter (set_activeDevices (activeDevices user ++ [_id device])%list) requester)
               w1)
      end
  end.

(** [if (device.userId) { const user = await User.findById(device.userId);
      if (user && String(user.activeDevice) === String(device._id)) {
        user.activeDevice = null; await user.save(); } }] *)
Definition clear_pointer (device : Device) (w : World) : World :=
  match userId device with
  | Some u =>
      match users w !! u with
      | Some user =>
          if String.eqb (id_string (activeDevice user)) (hexString (_id device))
          then with_users (alter (set_activeDevice None) u) w
          else w
      | None => w
      end
  | None => w
  end.

(** [exports.deleteDevice]; [id] is [req.params.id], a [deviceId]. *)
Definition deleteDevice (id : string) (w : World) : Response * World :=
  if String.eqb id "" then (Json 400 "Device ID is required", w) else
  match devices w !! id with
  | None => (Json 404 "Device not found", w)
  | Some device =>
      let w1 := clear_pointer device w in
      (Json 200 ("Device " +:+ deviceId device +:+ " deleted"),
       with_devices (delete id) w1)
  end.

(** [Device.findOne(filter)]: a document that passes the filter, [None]
    when there is none.  Which one it is when several pass is the
    collection's business. *)
Definition findOne (P : Device → Prop) `{∀ d, Decision (P d)}
    (m : gmap string Device) : option Device :=
  head (map_to_list (filter (λ kv, P kv.2) m)).*2.

(** What [GET /profiles/:profileId/active-device] answers: the
    [deviceId] of [Device.findOne({ profileId, status: "active" })] or
    [null] (inner [None]); outer [None] is the 500 of a [profileId] that
    does not cast. *)
Definition active_device (pid : string) (w : World) : option (option string) :=
  match castObjectId pid with
  | None => None
  | Some target =>
      Some (deviceId <$>
              findOne (λ d, profileId d = Some target ∧ status d = active) (devices w))
  end.

(** [validateDeviceId]: [{ ok: true, exists: !!d, assigned: !!d?.userId }]
    for [d = Device.findOne({ deviceId })], 400 without a [deviceId];
    [query] is [req.query.deviceId], empty when there is none. *)
Definition validateDeviceId (query : string) (w : World) : Response + bool * bool :=
  if String.eqb query "" then inl (Json 400 "deviceId required") else
  let d := devices w !! query in
  inr (bool_decide (is_Some d), bool_decide (is_Some (d ≫= userId))).

(** [GET /public/available]: the same answer, for
    [const deviceId = String(req.query.deviceId || '').trim().toUpperCase()]. *)
Definition available (query : string) (w : World) : Response + bool * bool :=
  let id := normalize_id query in
  if String.eqb id "" then inl (Json 400 "deviceId required") else
  let d := devices w !! id in
  inr (bool_decide (is_Some d), bool_decide (is_Some (d ≫= userId))).

End Controller.

(** ** Instances for the examples *)

Definition digit_of (c : ascii) : option Z :=
  let n := nat_of_ascii c in
  if Nat.leb 48 n && Nat.leb n 57 then Some (Z.of_nat (n - 48)) else None.

Fixpoint digits_value (acc : Z) (s : string) : option Z :=
  match s with
  | EmptyString => Some acc
  | String c s' =>
      match digit_of c with
      | Some d => digits_value (10 * acc + d) s'
      | None => None
      end
  end.

(** [Number(s)] on the strings the examples use: white space around an
    optionally signed run of decimal digits; the empty string is 0. *)
Definition decimal_number (s : string) : jsnum :=
  match trim s with
  | EmptyString => Fin 0
  | String c r =>
      if Ascii.eqb c "-" then
        match r, digits_value 0 r with
        | String _ _, Some z => Fin (inject_Z (- z))
        | _, _ => NaN
        end
      else
        match digits_value 0 (String c r) with
        | Some z => Fin (inject_Z z)
        | None => NaN
        end
  end.

(** An engine for the examples: no example converts an array or an
    object. *)
Definition decimal_engine : JsEngine :=
  {| StringToNumber := decimal_number;
     ObjectToNumber := λ _, NaN;
     ValueToString := λ _, "[object Object]" |}.

Definition hex_cast (s : string) : option N :=
  let n := HexString.to_N s in
  if String.eqb (HexString.of_N n) s then Some n else None.

(** Identifiers for the examples: numbers, written in hexadecimal. *)
Program Definition hex_ids : Bson :=
  {| ObjectId := N;
     castObjectId := hex_cast;
     hexString := HexString.of_N;
     castObjectId_hexString := _;
     castObjectId_empty := eq_refl |}.
Next Obligation.
  intros n. unfold hex_cast. rewrite HexString.to_N_of_N.
  now rewrite String.eqb_refl.
Qed.

(** The rule of the specification's scenario:
    [heartRate: min=30, max=220, mode=always], for devices of type
    [band]; no other type has rules. *)
Definition band_rules (deviceType : string) : list (string * Rule) :=
  if String.eqb deviceType "band" then
    [ ("heartRate", {| rule_min := Some 30%Q; rule_max := Some 220%Q; rule_mode := always |}) ]
  else [].
Definition oid (n : N) : @ObjectId hex_ids := n.

(** Two devices without a profile, each owned by a user. *)
Definition device_A : @Device hex_ids :=
  {| _id := oid 1; deviceId := "A"; deviceType := "band"; status := inactive;
     profileId := None; userId := Some (oid 7); lastActiveAt := None |}.

Definition device_B : @Device hex_ids :=
  {| _id := oid 2; deviceId := "B"; deviceType := "mat"; status := inactive;
     profileId := None; userId := Some (oid 8); lastActiveAt := None |}.

Definition no_user : @User hex_ids :=
  {| activeDevice := None; activeDevices := [] |}.

Definition two_devices : @World hex_ids :=
  {| devices := {[ "A" := device_A; "B" := device_B ]};
     users := {[ oid 7 := no_user; oid 8 := no_user ]};
     profiles := {[ oid 5 := {| identifier := "night" |} ]};
     healthData := [];
     sleepData := [];
     presenceState := ∅ |}.

(** Two requests for profile [0x5], one per device. *)
Definition request_A : Request := {| req_now := 100; req_deviceId := "A"; req_profileId := "0x5" |}.

Definition request_B : Request := {| req_now := 101; req_deviceId := "B"; req_profileId := "0x5" |}.

(** Both requests load their device, then both deactivate the profile's
    devices, then both save. *)
Definition overlapping : list bool :=
  [false; true; false; true; false; true; false; true; false; true].

(** A world for the ingestion examples: device [A] of type [band], and
    device [B] of type [mat], which has no rules; one record of [A] stored
    at time 995000. *)
Definition stored_record : HealthDoc :=
  {| h_deviceId := "A"; h_timestamp := 995000; h_doc := {[ "heartRate" := jnum 72 ]} |}.

Definition monitored : @World hex_ids :=
  {| devices := {[ "A" := device_A; "B" := device_B ]};
     users := {[ oid 7 := no_user; oid 8 := no_user ]};
     profiles := ∅;
     healthData := [stored_record];
     sleepData := [];
     presenceState := ∅ |}.

Definition noon : Clock := {| t_active := 1000000; t_stamp := 1000001; t_retract := 1000002 |}.


(** [{ "heartRate": 75 }] *)
Definition pulse_75 : jsval := JObj {[ "heartRate" := jnum 75 ]}.


(** [{ "heartRate": 25, "signals": { "presence": 0 } }] *)
Definition absent_25 : jsval :=
  JObj {[ "heartRate" := jnum 25; "signals" := JObj {[ "presence" := jnum 0 ]} ]}.




(** [{ "heartRate": 80, "lines": ["TEMP_HUM,21,40", "HR,75"] }] *)
Definition with_lines : jsval :=
  JObj {[ "heartRate" := jnum 80;
          "lines" := JArr [JStr "TEMP_HUM,21,40"; JStr "HR,75"] ]}.




(** [{ "sleepQuality": "good", "signals": { "presence": 0 } }] *)
Definition absent_sleep : jsval :=
  JObj {[ "sleepQuality" := JStr "good"; "signals" := JObj {[ "presence" := jnum 0 ]} ]}.

(** * Properties *)

Local Open Scope nat_scope.

(** ** The line decoder *)

Section DecoderProperties.
Context {E : JsEngine}.

Lemma hrv_object_lookup (parts : list string) (i : nat) (name : string) :
  hrv_names !! i = Some name →
  hrv_object parts !! name = Some (toNum (part parts (S i))).
Proof.
  intros Hname. unfold hrv_object.
  do 16 (destruct i as [|i];
         [injection Hname as <-;
          repeat match goal with
            | |- context [toNum (part parts ?k)] =>
                generalize (toNum (part parts k)); intro
            end;
          vm_compute; reflexivity|]).
  discriminate Hname.
Qed.

Lemma tag_of_empty_line : line_tag (line_parts "") ≠ "HRV_DATA".
Proof. discriminate. Qed.

Lemma promote_lookup (m p : gmap string jsval) (k flat : string) (v : jsval) :
  m !! k = Some v → v ≠ JUndef → promote m k flat p = <[flat := v]> p.
Proof.
  intros Hk Hv. unfold promote, prop. rewrite Hk. simpl.
  destruct v; congruence.
Qed.

(** C7. A line whose tag is [HRV_DATA] is decoded; when it carries at
    least sixteen fields after the tag and the first sixteen are numeric,
    each of the sixteen names of the metric bag holds the number at its
    position, [hrv] is the value at the [rmssd] position (the third) and
    [heartRate] the value at the [hr_median] position (the fifth); when it
    carries fewer than sixteen fields, the metric bag and the flat fields
    stay empty. *)
Theorem hrv_line_decoding (line : string) :
  line_tag (line_parts line) = "HRV_DATA" →
  ∃ p, parseUartLine line = Some p ∧
    (16 ≤ length (line_parts line) - 1 →
     (∀ i, 1 ≤ i ≤ 16 → numeric (part (line_parts line) i)) →
     (∀ i name, hrv_names !! i = Some name →
        ∃ q, metrics p !! name = Some (JNum (Fin q)) ∧
             toNum (part (line_parts line) (S i)) = JNum (Fin q)) ∧
     hrv_names !! 2 = Some "rmssd" ∧
     patch p !! "hrv" = Some (toNum (part (line_parts line) 3)) ∧
     hrv_names !! 4 = Some "hr_median" ∧
     patch p !! "heartRate" = Some (toNum (part (line_parts line) 5))) ∧
    (length (line_parts line) - 1 < 16 → metrics p = ∅ ∧ patch p = ∅).
Proof.
  intros Htag. unfold parseUartLine.
  destruct (String.eqb_spec line "") as [->|_].
  { now destruct tag_of_empty_line. }
  rewrite Htag. simpl String.eqb. cbv iota.
  destruct (Nat.leb_spec 17 (length (line_parts line))) as [Hlen|Hlen].
  - eexists. split; [reflexivity|]. cbn [metrics patch]. split; [|lia].
    intros _ Hnum.
    assert (Hget : ∀ i name, hrv_names !! i = Some name →
      ∃ q, Object_assign ∅ (hrv_object (line_parts line)) !! name = Some (JNum (Fin q)) ∧
           toNum (part (line_parts line) (S i)) = JNum (Fin q)).
    { intros i name Hname.
      destruct (Hnum (S i)) as [q Hq].
      { apply lookup_lt_Some in Hname. simpl in Hname. lia. }
      exists q. split; [|exact Hq].
      unfold Object_assign. rewrite lookup_union_l by apply lookup_empty.
      rewrite (hrv_object_lookup _ i name Hname). now rewrite Hq. }
    split; [exact Hget|].
    destruct (Hget 2 "rmssd" eq_refl) as (q3 & Hm3 & Hq3).
    destruct (Hget 4 "hr_median" eq_refl) as (q5 & Hm5 & Hq5).
    rewrite (promote_lookup _ _ _ _ _ Hm3) by discriminate.
    rewrite (promote_lookup _ _ _ _ _ Hm5) by discriminate.
    rewrite Hq3, Hq5.
    repeat split; reflexivity.
  - eexists. split; [reflexivity|]. cbn [metrics patch]. split; [lia|].
    intros _. split; reflexivity.
Qed.

End DecoderProperties.

(** A full line and a short one, read with [decimal_engine]. *)
Lemma hrv_line_decoding_witness :
  (∃ p, parseUartLine (E := decimal_engine)
          "HRV_DATA,810,52,41,18,74,11,230,29,68,512,301,2,1,0,3,4" = Some p ∧
        metrics p !! "rmssd" = Some (jnum 41) ∧
        metrics p !! "pns_index" = Some (jnum 4) ∧
        patch p !! "hrv" = Some (jnum 41) ∧
        patch p !! "heartRate" = Some (jnum 74)) ∧
  (∃ p, parseUartLine (E := decimal_engine) "hrv_data, 810, 52, 41" = Some p ∧
        metrics p = ∅).
Proof.
  split.
  - destruct (hrv_line_decoding (E := decimal_engine)
                "HRV_DATA,810,52,41,18,74,11,230,29,68,512,301,2,1,0,3,4" eq_refl)
      as (p & Hp & Hfull & _).
    exists p. split; [exact Hp|].
    destruct Hfull as (Hbag & _ & Hhrv & _ & Hhr).
    + vm_compute. lia.
    + intros i [Hlo Hhi].
      do 17 (destruct i as [|i]; [first [lia | eexists; vm_compute; reflexivity]|]).
      lia.
    + destruct (Hbag 2 "rmssd" eq_refl) as (q3 & Hm3 & Hq3).
      destruct (Hbag 15 "pns_index" eq_refl) as (q16 & Hm16 & Hq16).
      vm_compute in Hq3, Hq16.
      injection Hq3 as <-. injection Hq16 as <-.
      repeat split; assumption.
  - destruct (hrv_line_decoding (E := decimal_engine) "hrv_data, 810, 52, 41" eq_refl)
      as (p & Hp & _ & Hshort).
    exists p. split; [exact Hp|].
    apply Hshort. vm_compute. lia.
Defined.

(** ** Activation and deactivation *)

Section ActivationProperties.
Context {B : Bson}.

Lemma hexString_nonempty (o : ObjectId) : String.eqb (hexString o) "" = false.
Proof.
  destruct (String.eqb_spec (hexString o) "") as [Heq|]; [|reflexivity].
  pose proof (castObjectId_hexString o) as Hc.
  rewrite Heq, castObjectId_empty in Hc. discriminate.
Qed.

Lemma cast_nonempty (pid : string) (target : ObjectId) :
  castObjectId pid = Some target → String.eqb pid "" = false.
Proof.
  intros Hc. destruct (String.eqb_spec pid "") as [->|]; [|reflexivity].
  rewrite castObjectId_empty in Hc. discriminate.
Qed.

Lemma hexString_inj (a b : ObjectId) : hexString a = hexString b → a = b.
Proof.
  intros Heq. pose proof (castObjectId_hexString a) as Ha.
  rewrite Heq, castObjectId_hexString in Ha. congruence.
Qed.

Lemma devices_point_user (d : Device) (w : World) :
  devices (point_user d w) = devices w.
Proof. unfold point_user. now destruct (userId d). Qed.

Lemma deactivated_profileId (target : ObjectId) (d : Device) :
  profileId (deactivated target d) = profileId d.
Proof. unfold deactivated. now destruct (decide _). Qed.

Lemma deactivated_not_active (target : ObjectId) (d : Device) :
  profileId (deactivated target d) = Some target → status (deactivated target d) ≠ active.
Proof.
  unfold deactivated. destruct (decide _) as [|Hne]; simpl; [discriminate|].
  intros Hp. contradiction.
Qed.

(** The devices a completed activation leaves: the others as [updateMany]
    left them, the device of the request with its modified paths
    written. *)
Lemma devices_after_activation (now : Z) (id : string) (d : Device)
    (target : ObjectId) (w : World) (i : string) :
  devices (point_user d (save_activated id d target now (deactivate_profile target w))) !! i
  = if decide (id = i) then
      (λ x, write (assign (lastActiveAt d) (Some now)) set_lastActiveAt
              (write (assign (profileId d) (Some target)) set_profileId
                 (write (assign (status d) active) set_status (deactivated target x))))
      <$> devices w !! i
    else deactivated target <$> devices w !! i.
Proof.
  rewrite devices_point_user. unfold save_activated, deactivate_profile. simpl.
  rewrite lookup_alter. destruct (decide (id = i)) as [->|Hne].
  - rewrite lookup_fmap. now destruct (devices w !! i).
  - now rewrite lookup_fmap.
Qed.

(** The shape of a successful activation. *)
Lemma activate_succeeds (now : Z) (id pid : string) (w : World) (d : Device)
    (target : ObjectId) :
  devices w !! id = Some d →
  other_profile d pid = None →
  castObjectId pid = Some target →
  ∃ m, activate now id pid w
       = (Json 200 m, point_user d (save_activated id d target now (deactivate_profile target w))).
Proof.
  intros Hd Ho Hc. unfold activate.
  rewrite (cast_nonempty _ _ Hc), Hd, Ho, Hc. eauto.
Qed.

Lemma activate_200 (now : Z) (id pid : string) (w w' : World) (m : string) :
  activate now id pid w = (Json 200 m, w') →
  ∃ d target,
    devices w !! id = Some d ∧ other_profile d pid = None ∧
    castObjectId pid = Some target ∧
    w' = point_user d (save_activated id d target now (deactivate_profile target w)).
Proof.
  unfold activate.
  destruct (String.eqb pid ""); [discriminate|].
  destruct (devices w !! id) as [d|]; [|discriminate].
  destruct (other_profile d pid) eqn:Ho; [discriminate|].
  destruct (castObjectId pid) as [target|]; [|discriminate].
  intros [= _ <-]. eauto 6.
Qed.

(** After a successful activation no device other than the one of the
    request is active for the profile. *)
Lemma activate_at_most_one (now : Z) (id pid : string) (w w' : World) (m : string)
    (target : ObjectId) (i : string) :
  activate now id pid w = (Json 200 m, w') →
  castObjectId pid = Some target →
  active_for target w' i → i = id.
Proof.
  intros Hrun Hc (x & Hx & Hp & Hs).
  destruct (activate_200 _ _ _ _ _ _ Hrun) as (d & t & Hd & _ & Hc' & ->).
  assert (t = target) as -> by congruence.
  rewrite devices_after_activation in Hx.
  destruct (decide (id = i)) as [->|Hne]; [reflexivity|].
  destruct (devices w !! i) as [y|]; [|discriminate]. injection Hx as <-.
  now destruct (deactivated_not_active target y).
Qed.

(** A device that was not already active on the requested profile is,
    after a successful activation, the one active device of that
    profile. *)
Lemma activate_fresh (now : Z) (id pid : string) (w : World) (d : Device)
    (target : ObjectId) :
  devices w !! id = Some d →
  other_profile d pid = None →
  castObjectId pid = Some target →
  ¬ (status d = active ∧ profileId d = Some target) →
  ∃ m w', activate now id pid w = (Json 200 m, w') ∧
          ∀ i, active_for target w' i ↔ i = id.
Proof.
  intros Hd Ho Hc Hfresh.
  destruct (activate_succeeds now _ _ _ _ _ Hd Ho Hc) as [m Hrun].
  eexists _, _. split; [exact Hrun|].
  intros i. split; [apply (activate_at_most_one _ _ _ _ _ _ _ _ Hrun Hc)|].
  intros ->. unfold active_for. rewrite devices_after_activation.
  rewrite decide_True by reflexivity. rewrite Hd. simpl.
  eexists. split; [reflexivity|].
  unfold assign, write, deactivated.
  destruct (decide (Some now = lastActiveAt d));
    destruct (decide (Some target = profileId d)) as [Hp|Hp];
    destruct (decide (active = status d)) as [Hs|Hs];
    destruct (decide (profileId d = Some target)) as [Hp'|Hp'];
    simpl;
    first [ split; congruence | exfalso; apply Hfresh; split; congruence ].
Qed.

(** C4. A device that is already active on the requested profile (as it
    is after a first [activate]) is left inactive by [activate]:
    [updateMany] deactivates it with the other devices of the profile, and
    [save] writes no [status], because the assignment of ["active"] to the
    document loaded before does not change it.  The request is answered
    with 200 and the profile is left without an active device. *)
Theorem reactivation_leaves_inactive (now : Z) (id : string) (w : World)
    (d : Device) (target : ObjectId) :
  devices w !! id = Some d →
  status d = active →
  profileId d = Some target →
  ∃ m w', activate now id (hexString target) w = (Json 200 m, w') ∧
    (∃ d', devices w' !! id = Some d' ∧ profileId d' = Some target ∧
           status d' = inactive) ∧
    (∀ i, ¬ active_for target w' i).
Proof.
  intros Hd Hs Hp.
  assert (Ho : other_profile d (hexString target) = None).
  { unfold other_profile. now rewrite Hs, Hp, String.eqb_refl. }
  destruct (activate_succeeds now _ _ _ _ _ Hd Ho (castObjectId_hexString target))
    as [m Hrun].
  assert (Hid : ∃ d', devices (point_user d (save_activated id d target now
                         (deactivate_profile target w))) !! id = Some d' ∧
                      profileId d' = Some target ∧ status d' = inactive).
  { rewrite devices_after_activation, decide_True by reflexivity.
    rewrite Hd. simpl. eexists. split; [reflexivity|].
    unfold assign, write, deactivated. rewrite Hs, Hp.
    destruct (decide (Some now = lastActiveAt d));
      rewrite !decide_True by reflexivity; simpl; split; congruence. }
  eexists _, _. split; [exact Hrun|]. split; [exact Hid|].
  intros i Hact.
  pose proof (activate_at_most_one _ _ _ _ _ _ _ _ Hrun (castObjectId_hexString target) Hact)
    as ->.
  destruct Hact as (x & Hx & _ & Hsx). destruct Hid as (d' & Hd' & _ & Hsd').
  congruence.
Qed.

(** C5. A device that is active and bound to a profile is refused with
    409 when the requested id does not denote that profile; the message
    names the bound profile by its [identifier] (by its id when the
    profile document has no identifier), and the collections are left as
    they were: no device is deactivated and no user pointer moves. *)
Theorem activate_conflict (now : Z) (id pid : string) (w : World)
    (d : Device) (p : ObjectId) :
  devices w !! id = Some d →
  status d = active →
  profileId d = Some p →
  pid ≠ "" →
  castObjectId pid ≠ Some p →
  ∃ label,
    activate now id pid w = (Json 409 (already_active_on id label), w) ∧
    (∀ prof, profiles w !! p = Some prof → identifier prof ≠ "" →
             label = identifier prof) ∧
    ((∀ prof, profiles w !! p = Some prof → identifier prof = "") →
             label = hexString p).
Proof.
  intros Hd Hs Hp Hpid Hne.
  exists (profile_label w (Some p) (hexString p)).
  split; [|split].
  - unfold activate. destruct (String.eqb_spec pid ""); [contradiction|].
    rewrite Hd. unfold other_profile. rewrite Hs, Hp.
    destruct (String.eqb_spec (hexString p) pid) as [Heq|_]; [|reflexivity].
    destruct Hne. rewrite <- Heq. apply castObjectId_hexString.
  - intros prof Hprof Hid. unfold profile_label. simpl. rewrite Hprof.
    destruct (String.eqb_spec (identifier prof) ""); [contradiction|reflexivity].
  - intros Hnone. unfold profile_label. simpl.
    destruct (profiles w !! p) as [prof|] eqn:Hprof; [|reflexivity].
    now rewrite (Hnone prof eq_refl).
Qed.

Lemma interleave_app (r1 r2 : Request) (s1 s2 : list bool)
    (a1 a2 : Activation) (w : World) :
  interleave r1 r2 (s1 ++ s2) a1 a2 w
  = let '(a1', a2', w') := interleave r1 r2 s1 a1 a2 w in
    interleave r1 r2 s2 a1' a2' w'.
Proof.
  revert a1 a2 w. induction s1 as [|[|] s1 IH]; intros a1 a2 w; simpl.
  - reflexivity.
  - destruct (request_step r2 a2 w). apply IH.
  - destruct (request_step r1 a1 w). apply IH.
Qed.

(** Six steps of a request that no other request interrupts are the
    handler [activate]. *)
Lemma first_alone (r1 r2 : Request) (a2 : Activation) (w : World) :
  interleave r1 r2 (replicate 6 false) (activate_start (req_profileId r1)) a2 w
  = (Responded (activate (req_now r1) (req_deviceId r1) (req_profileId r1) w).1, a2,
     (activate (req_now r1) (req_deviceId r1) (req_profileId r1) w).2).
Proof.
  unfold activate, activate_start, request_step. simpl.
  destruct (String.eqb (req_profileId r1) ""); [reflexivity|]. simpl.
  destruct (devices w !! req_deviceId r1) as [d|]; [|reflexivity].
  destruct (other_profile d (req_profileId r1)); [reflexivity|]. simpl.
  destruct (castObjectId (req_profileId r1)); reflexivity.
Qed.

Lemma second_alone (r1 r2 : Request) (a1 : Activation) (w : World) :
  interleave r1 r2 (replicate 6 true) a1 (activate_start (req_profileId r2)) w
  = (a1, Responded (activate (req_now r2) (req_deviceId r2) (req_profileId r2) w).1,
     (activate (req_now r2) (req_deviceId r2) (req_profileId r2) w).2).
Proof.
  unfold activate, activate_start, request_step. simpl.
  destruct (String.eqb (req_profileId r2) ""); [reflexivity|]. simpl.
  destruct (devices w !! req_deviceId r2) as [d|]; [|reflexivity].
  destruct (other_profile d (req_profileId r2)); [reflexivity|]. simpl.
  destruct (castObjectId (req_profileId r2)); reflexivity.
Qed.

(** C8, as the code has it.  Nothing excludes two activations of one
    profile from each other; they exclude each other only when they do not
    overlap: if the second request starts after the first has answered,
    the two runs are two calls of [activate], and when both answer 200 the
    device of the second request is the one active device of the
    profile. *)
Theorem activations_in_sequence (r1 r2 : Request) (w w' : World)
    (target : ObjectId) (m1 m2 : string) :
  req_profileId r1 = req_profileId r2 →
  castObjectId (req_profileId r2) = Some target →
  req_deviceId r1 ≠ req_deviceId r2 →
  run_both r1 r2 (replicate 6 false ++ replicate 6 true) w
    = (Responded (Json 200 m1), Responded (Json 200 m2), w') →
  w' = (activate (req_now r2) (req_deviceId r2) (req_profileId r2)
          (activate (req_now r1) (req_deviceId r1) (req_profileId r1) w).2).2 ∧
  ∀ i, active_for target w' i ↔ i = req_deviceId r2.
Proof.
  intros Hsame Hc Hne. unfold run_both.
  rewrite interleave_app, first_alone. cbv beta iota zeta. rewrite second_alone.
  destruct (activate (req_now r1) (req_deviceId r1) (req_profileId r1) w)
    as [x1 w1] eqn:Hrun1.
  cbn [fst snd].
  destruct (activate (req_now r2) (req_deviceId r2) (req_profileId r2) w1)
    as [x2 w2] eqn:Hrun2.
  simpl. intros [= -> -> <-]. split; [reflexivity|].
  destruct (activate_200 _ _ _ _ _ _ Hrun2) as (d2 & t & Hd2 & Ho2 & Hc2 & _).
  assert (t = target) as -> by congruence.
  destruct (activate_fresh (req_now r2) _ _ _ _ _ Hd2 Ho2 Hc2) as (m & w3 & Hrun3 & Hone).
  - intros [Hs Hp]. apply Hne. symmetry.
    rewrite <- Hsame in Hc.
    apply (activate_at_most_one _ _ _ _ _ _ target (req_deviceId r2) Hrun1 Hc).
    exists d2. auto.
  - rewrite Hrun2 in Hrun3. injection Hrun3 as _ <-. exact Hone.
Qed.

(** C6, as the code has it.  [setInactiveDevice] asks that the requesting
    user exists, not that it owns the device: for an existing requester
    and an existing device, whoever owns it, the answer is 200, the device
    is set inactive and leaves the requester's [activeDevices]; the other
    devices and users are untouched.  When it does not answer 200 nothing
    changes. *)
Theorem deactivate_any_device (requester : ObjectId) (id : string) (w : World) :
  (∀ u d, id ≠ "" → users w !! requester = Some u → devices w !! id = Some d →
     ∃ w', setInactiveDevice requester id w = (Json 200 (set_as_inactive (deviceId d)), w') ∧
       devices w' = <[id := set_status inactive d]> (devices w) ∧
       (∃ u', users w' = <[requester := u']> (users w) ∧
              activeDevice u' = activeDevice u ∧
              ∀ i, i ∈ activeDevices u' ↔ i ∈ activeDevices u ∧ i ≠ _id d)) ∧
  (∀ code m w', setInactiveDevice requester id w = (Json code m, w') →
     code ≠ 200 → w' = w).
Proof.
  split.
  - intros u d Hid Hu Hd. unfold setInactiveDevice.
    destruct (String.eqb_spec id "") as [|_]; [contradiction|].
    rewrite Hu, Hd. eexists. split; [reflexivity|]. simpl. split.
    + apply map_eq. intros i. rewrite lookup_alter, lookup_insert.
      destruct (decide (id = i)) as [->|]; [now rewrite Hd|reflexivity].
    + eexists. split.
      * apply map_eq. intros i. rewrite lookup_alter, lookup_insert.
        destruct (decide (requester = i)) as [->|]; [now rewrite Hu|reflexivity].
      * split; [reflexivity|]. intros i. simpl.
        rewrite list_elem_of_filter. split.
        -- intros [Hne Hin]. split; [exact Hin|]. intros ->. now apply Hne.
        -- intros [Hin Hne]. split; [|exact Hin]. intros Heq.
           apply Hne. now apply hexString_inj.
  - intros code m w'. unfold setInactiveDevice.
    destruct (String.eqb id ""); [now intros [= _ _ <-]|].
    destruct (users w !! requester); [|now intros [= _ _ <-]].
    destruct (devices w !! id); [|now intros [= _ _ <-]].
    intros [= <- _ _] Hcode. now destruct Hcode.
Qed.

End ActivationProperties.

(** Device [A], activated on profile [0x5], is activated on it again. *)
Lemma reactivation_leaves_inactive_witness :
  let w1 : @World hex_ids := (activate 100 "A" "0x5" two_devices).2 in
  active_for (oid 5) w1 "A" ∧
  ∃ m w2, activate (B := hex_ids) 200 "A" "0x5" w1 = (Json 200 m, w2) ∧
          ∀ i, ¬ active_for (oid 5) w2 i.
Proof.
  intros w1. split.
  - eexists. split; [vm_compute; reflexivity|]. split; reflexivity.
  - destruct (reactivation_leaves_inactive (B := hex_ids) 200 "A" w1
                {| _id := oid 1; deviceId := "A"; deviceType := "band"; status := active;
                   profileId := Some (oid 5); userId := Some (oid 7);
                   lastActiveAt := Some 100%Z |} (oid 5))
      as (m & w2 & Hrun & _ & Hnone).
    + vm_compute. reflexivity.
    + reflexivity.
    + reflexivity.
    + exists m, w2. split; [exact Hrun|exact Hnone].
Defined.

(** Device [A], active on profile [0x5] (named [night]), is asked onto
    profile [0x6]. *)
Lemma activate_conflict_witness :
  let w : @World hex_ids := (activate 100 "A" "0x5" two_devices).2 in
  activate (B := hex_ids) 200 "A" "0x6" w
    = (Json 409 (already_active_on "A" "night"), w).
Proof.
  intros w.
  destruct (activate_conflict (B := hex_ids) 200 "A" "0x6" w
              {| _id := oid 1; deviceId := "A"; deviceType := "band"; status := active;
                 profileId := Some (oid 5); userId := Some (oid 7);
                 lastActiveAt := Some 100%Z |}
              (oid 5))
    as (label & Hrun & Hname & _).
  - vm_compute. reflexivity.
  - reflexivity.
  - reflexivity.
  - discriminate.
  - vm_compute. discriminate.
  - rewrite Hrun. rewrite (Hname {| identifier := "night" |}).
    + reflexivity.
    + vm_compute. reflexivity.
    + discriminate.
Defined.

(** C6, as stated, fails: user [8] exists and does not own device [A]
    (user [7] does); its request sets the active device [A] inactive. *)
Lemma deactivate_by_non_owner :
  let w : @World hex_ids := (activate 100 "A" "0x5" two_devices).2 in
  (userId (B := hex_ids) <$> devices w !! "A") = Some (Some (oid 7)) ∧
  (status (B := hex_ids) <$> devices w !! "A") = Some active ∧
  (status (B := hex_ids) <$> devices (setInactiveDevice (oid 8) "A" w).2 !! "A") = Some inactive.
Proof. vm_compute. repeat split; reflexivity. Qed.

Lemma deactivate_any_device_witness :
  let w : @World hex_ids := (activate 100 "A" "0x5" two_devices).2 in
  ∃ w', setInactiveDevice (oid 8) "A" w = (Json 200 (set_as_inactive "A"), w') ∧
        (status (B := hex_ids) <$> devices w' !! "A") = Some inactive.
Proof.
  intros w.
  destruct (proj1 (deactivate_any_device (B := hex_ids) (oid 8) "A" w) no_user
              {| _id := oid 1; deviceId := "A"; deviceType := "band"; status := active;
                 profileId := Some (oid 5); userId := Some (oid 7);
                 lastActiveAt := Some 100%Z |})
    as (w' & Hrun & Hdev & _).
  - discriminate.
  - vm_compute. reflexivity.
  - vm_compute. reflexivity.
  - exists w'. split; [exact Hrun|].
    rewrite Hdev, lookup_insert_eq. reflexivity.
Defined.

(** C8, as stated, fails: the two requests overlap, both answer 200, and
    both devices end active for profile [0x5]. *)
Lemma overlapping_activations_both_active :
  let r := run_both (B := hex_ids) request_A request_B overlapping two_devices in
  r.1.1 = Responded (Json 200 (activated_on "A" "night")) ∧
  r.1.2 = Responded (Json 200 (activated_on "B" "night")) ∧
  active_for (oid 5) r.2 "A" ∧
  active_for (oid 5) r.2 "B" ∧
  ¬ exclusive (oid 5) r.2.
Proof.
  intros r.
  assert (HA : active_for (oid 5) r.2 "A").
  { exists {| _id := oid 1; deviceId := "A"; deviceType := "band"; status := active;
              profileId := Some (oid 5); userId := Some (oid 7);
              lastActiveAt := Some 100%Z |}.
    split; [vm_compute; reflexivity|]. split; reflexivity. }
  assert (HB : active_for (oid 5) r.2 "B").
  { exists {| _id := oid 2; deviceId := "B"; deviceType := "mat"; status := active;
              profileId := Some (oid 5); userId := Some (oid 8);
              lastActiveAt := Some 101%Z |}.
    split; [vm_compute; reflexivity|]. split; reflexivity. }
  split; [vm_compute; reflexivity|]. split; [vm_compute; reflexivity|].
  split; [exact HA|]. split; [exact HB|].
  intros Hex. discriminate (Hex "A" "B" HA HB).
Qed.

(** The same two requests, one after the other. *)
Lemma activations_in_sequence_witness :
  let r := run_both (B := hex_ids) request_A request_B
             (replicate 6 false ++ replicate 6 true) two_devices in
  active_for (oid 5) r.2 "B" ∧ ¬ active_for (oid 5) r.2 "A".
Proof.
  intros r.
  assert (Hone : ∀ i, active_for (oid 5) r.2 i ↔ i = "B").
  { refine (proj2 (activations_in_sequence (B := hex_ids) request_A request_B two_devices
                     r.2 (oid 5) (activated_on "A" "night") (activated_on "B" "night")
                     eq_refl eq_refl _ _)).
    - discriminate.
    - assert (H1 : r.1.1 = Responded (Json 200 (activated_on "A" "night")))
        by (vm_compute; reflexivity).
      assert (H2 : r.1.2 = Responded (Json 200 (activated_on "B" "night")))
        by (vm_compute; reflexivity).
      change (r = (Responded (Json 200 (activated_on "A" "night")),
                   Responded (Json 200 (activated_on "B" "night")), r.2)).
      clearbody r. destruct r as [[a1 a2] w']. simpl in H1, H2. now subst. }
  split.
  - now apply Hone.
  - intros HA. apply Hone in HA. discriminate HA.
Defined.

(** ** Ingestion *)

Section IngestionProperties.
Context {E : JsEngine} {B : Bson}.
Variable SPEC : string → list (string * Rule).






(** The handler on a health topic of a known device. *)
Lemma on_health_message (clk : Clock) (topic id : string) (data : jsval) (w : World) :
  topic_deviceId topic = Some id → id ≠ "" → includes "/health" topic = true →
  on_message SPEC clk topic data w
  = health_message SPEC clk id (devices w !! id) data
      (match devices w !! id with
       | Some _ => mark_active id (t_active clk) w
       | None => w
       end).
Proof.
  intros Ht Hid Hh. unfold on_message. rewrite Ht, Hh.
  destruct (String.eqb_spec id ""); [contradiction|reflexivity].
Qed.


Lemma healthData_mark_active (id : string) (now : Z) (w : World) :
  healthData (mark_active id now w) = healthData w.
Proof. reflexivity. Qed.

Lemma presenceState_mark_active (id : string) (now : Z) (w : World) :
  presenceState (mark_active id now w) = presenceState w.
Proof. reflexivity. Qed.




Lemma healthData_presence_gate (clk : Clock) (id : string) (p : jsnum) (w : World) :
  healthData (presence_gate clk id p w)
  = if num_eq (lastPresence (tracker_of w id)) (Fin 1) && num_eq p (Fin 0)
    then healthData (retract id (t_retract clk - 12000) w)
    else healthData w.
Proof. unfold presence_gate. now destruct (_ && _). Qed.

(** The records after the rule stage: one more when no bound is violated
    and some metric changed, the same otherwise. *)
Lemma healthData_rule_stage (clk : Clock) (id : string) (dev : Device) (data : jsval)
    (base : gmap string jsval) (w : World) :
  healthData (rule_stage SPEC clk id dev data base w)
  = let verdict := apply_rules (SPEC (deviceType dev)) data base
                     (lastValues (tracker_of w id)) in
    match violations verdict, changes verdict with
    | [], _ :: _ =>
        (healthData w ++ [ {| h_deviceId := id; h_timestamp := t_stamp clk;
                              h_doc := mqtt_health_doc base data |} ])%list
    | _, _ => healthData w
    end.
Proof.
  unfold rule_stage. cbv zeta.
  destruct (violations _); [destruct (changes _)|]; reflexivity.
Qed.



(** C2. On the pub/sub path a message of a device whose type has no
    rules, with a presence that is not 0, is not stored: the rules loop
    finds no violation and no change, and the handler returns at its
    no-change exit, whatever the payload holds. *)
Theorem no_rules_message_dropped (clk : Clock) (topic id : string) (data : jsval)
    (w : World) (dev : Device) :
  topic_deviceId topic = Some id →
  id ≠ "" →
  includes "/health" topic = true →
  devices w !! id = Some dev →
  SPEC (deviceType dev) = [] →
  num_eq (presence_of (base_record id (t_stamp clk) data)) (Fin 0) = false →
  violations (apply_rules (SPEC (deviceType dev)) data
                (base_record id (t_stamp clk) data) (lastValues (tracker_of w id))) = [] ∧
  healthData (on_message SPEC clk topic data w) = healthData w.
Proof.
  intros Ht Hid Hh Hd Hspec Hpres. rewrite Hspec. split; [reflexivity|].
  rewrite (on_health_message _ _ _ _ _ Ht Hid Hh), Hd.
  unfold health_message. destruct (nullish data); [reflexivity|].
  cbv zeta. rewrite Hpres, healthData_rule_stage, Hspec. cbn [apply_rules fold_left violations].
  rewrite healthData_presence_gate, Hpres, andb_false_r. reflexivity.
Qed.

(** C1. The request path stores every health request of a known device
    that carries [data], whatever its presence signal and its metrics: it
    consults neither the tracker, which it leaves as it was, nor any rule
    table. *)
Theorem ingest_stores_ungated (clk : Clock) (id : string) (data : jsval)
    (w : World) (dev : Device) :
  id ≠ "" →
  truthy data = true →
  devices w !! id = Some dev →
  ∃ w', ingest clk id "health" data w = (Json 200 "Health data saved via http", w') ∧
    healthData w'
    = (healthData w ++ [ {| h_deviceId := id; h_timestamp := t_stamp clk;
                            h_doc := http_health_doc id (t_stamp clk) data |} ])%list ∧
    presenceState w' = presenceState w.
Proof.
  intros Hid Hdata Hd. unfold ingest.
  destruct (String.eqb_spec id ""); [contradiction|].
  rewrite Hdata, Hd. cbn [orb negb String.eqb Ascii.eqb Bool.eqb].
  eexists. split; [reflexivity|]. split; reflexivity.
Qed.










End IngestionProperties.



(** Device [B] is of type [mat], which has no rules: its message with
    heart rate 75 and no presence signal is not stored. *)
Lemma no_rules_message_dropped_witness :
  healthData (on_message (E := decimal_engine) (B := hex_ids)
                band_rules noon "/B/health" pulse_75 monitored)
  = healthData monitored.
Proof.
  refine (proj2 (no_rules_message_dropped (E := decimal_engine) (B := hex_ids)
                   band_rules noon "/B/health" "B" pulse_75 monitored device_B
                   eq_refl _ eq_refl _ eq_refl _)).
  - discriminate.
  - vm_compute. reflexivity.
  - vm_compute. reflexivity.
Defined.

(** The request path stores a message of device [A] with presence 0 and a
    heart rate under the minimum of its rule; the pub/sub path, given the
    same payload, stores nothing. *)
Lemma ingest_stores_ungated_witness :
  num_eq (presence_of (E := decimal_engine) (base_record "A" (t_stamp noon) absent_25))
    (Fin 0) = true ∧
  (∃ w', ingest (E := decimal_engine) (B := hex_ids) noon "A" "health" absent_25 monitored
         = (Json 200 "Health data saved via http", w') ∧
         length (healthData w') = 2) ∧
  healthData (on_message (E := decimal_engine) (B := hex_ids)
                band_rules noon "/A/health" absent_25 monitored) = [].
Proof.
  split; [vm_compute; reflexivity|]. split; [|vm_compute; reflexivity].
  destruct (ingest_stores_ungated (E := decimal_engine) (B := hex_ids)
              noon "A" absent_25 monitored device_A) as (w' & Hrun & Hrec & _).
  - discriminate.
  - reflexivity.
  - vm_compute. reflexivity.
  - exists w'. split; [exact Hrun|]. rewrite Hrec. reflexivity.
Defined.



(** * Further properties of the handlers *)

(** ** The decoder and the folding of lines *)

Section MoreDecoderProperties.
Context {E : JsEngine}.

Lemma parseUartLine_raw (line : string) (p : parsed) :
  parseUartLine line = Some p → raw p = line.
Proof.
  unfold parseUartLine.
  repeat match goal with
         | |- context [if ?b then _ else _] => destruct b
         end; intros [= <-]; reflexivity.
Qed.

Lemma parseUartLine_none (line : string) :
  parseUartLine line = None ↔ line = "".
Proof.
  unfold parseUartLine. destruct (String.eqb_spec line "") as [->|Hne].
  - split; reflexivity.
  - split; [|contradiction].
    repeat match goal with
           | |- context [if ?b then _ else _] => destruct b
           end; discriminate.
Qed.

(** X1. The decoder never fails: it answers [null] for the empty line
    only; for every other line the result keeps the line as [raw], and a
    line whose tag is not one of the twelve known tags contributes nothing
    but that raw text. *)
Theorem unrecognized_line_is_raw_only (line : string) :
  (parseUartLine line = None ↔ line = "") ∧
  (∀ p, parseUartLine line = Some p → raw p = line) ∧
  (line ≠ "" → line_tag (line_parts line) ∉ known_tags →
   parseUartLine line = Some {| patch := ∅; metrics := ∅; signals := ∅; raw := line |}).
Proof.
  split; [apply parseUartLine_none|]. split; [apply parseUartLine_raw|].
  intros Hne Htag. unfold parseUartLine.
  destruct (String.eqb_spec line ""); [contradiction|].
  assert (Hno : ∀ t, t ∈ known_tags → String.eqb (line_tag (line_parts line)) t = false).
  { intros t Ht. destruct (String.eqb_spec (line_tag (line_parts line)) t) as [Heq|];
      [|reflexivity]. rewrite Heq in Htag. contradiction. }
  unfold known_tags in Hno.
  rewrite !Hno by (repeat first [apply list_elem_of_here | apply list_elem_of_further]).
  reflexivity.
Qed.

Lemma line_parts_cons (line : string) : ∃ h t, line_parts line = h :: t.
Proof.
  unfold line_parts. generalize (trim line). intros s.
  assert (H : ∃ h t, split "," s = h :: t).
  { induction s as [|c s (h & t & IH)]; [by eexists _, _|]. cbn [split].
    rewrite IH. destruct (Ascii.eqb c ","); by eexists _, _. }
  destruct H as (h & t & ->). by eexists _, _.
Qed.

Lemma part_tail (h : string) (t : list string) (i : nat) :
  part (h :: t) (S i) = part t i.
Proof. reflexivity. Qed.

Lemma hrv_object_tail (h1 h2 : string) (t : list string) :
  hrv_object (h1 :: t) = hrv_object (h2 :: t).
Proof. unfold hrv_object. by rewrite !part_tail. Qed.

(** X2. What a line decodes to is decided by its tag in upper case
    and by the fields after the tag, trimmed: two lines that agree on
    these decode to the same patch, metrics and signals, however the tag
    is capitalised and wherever blanks stand around the commas. *)
Theorem decoding_ignores_tag_case (l1 l2 : string) (p1 p2 : parsed) :
  line_tag (line_parts l1) = line_tag (line_parts l2) →
  tl (line_parts l1) = tl (line_parts l2) →
  parseUartLine l1 = Some p1 →
  parseUartLine l2 = Some p2 →
  patch p1 = patch p2 ∧ metrics p1 = metrics p2 ∧ signals p1 = signals p2.
Proof.
  unfold parseUartLine.
  destruct (line_parts_cons l1) as (h1 & t1 & ->).
  destruct (line_parts_cons l2) as (h2 & t2 & ->).
  cbn [tl]. intros Htag <-. rewrite Htag. cbv zeta. cbn [length].
  rewrite (hrv_object_tail h1 h2 t1), !part_tail.
  unfold flag. rewrite !part_tail.
  destruct (String.eqb l1 ""), (String.eqb l2 ""); try discriminate.
  repeat match goal with
         | |- context [if ?b then _ else _] => destruct b
         end; intros [= <-] [= <-]; by repeat split.
Qed.

(** X3. An [HRV_DATA] line with fewer than the tag and sixteen fields
    is kept as raw text only: none of its fields is decoded. *)
Theorem short_hrv_line_is_raw_only (line : string) :
  line ≠ "" →
  line_tag (line_parts line) = "HRV_DATA" →
  length (line_parts line) < 17 →
  parseUartLine line = Some {| patch := ∅; metrics := ∅; signals := ∅; raw := line |}.
Proof.
  intros Hne Htag Hlen. unfold parseUartLine.
  destruct (String.eqb_spec line ""); [contradiction|].
  cbv zeta. rewrite Htag. cbn [String.eqb Ascii.eqb Bool.eqb andb].
  destruct (Nat.leb_spec 17 (length (line_parts line))); [lia|reflexivity].
Qed.

End MoreDecoderProperties.

(** A line with a tag the decoder has no case for. *)
Lemma unrecognized_line_is_raw_only_witness :
  parseUartLine (E := decimal_engine) "SPO2,97"
  = Some {| patch := ∅; metrics := ∅; signals := ∅; raw := "SPO2,97" |}.
Proof.
  apply (proj2 (proj2 (unrecognized_line_is_raw_only (E := decimal_engine) "SPO2,97"))).
  - discriminate.
  - vm_compute. intros Hin. repeat (apply elem_of_cons in Hin as [Hin|Hin]; [discriminate|]).
    inversion Hin.
Defined.

(** The same reading, written in two ways. *)
Lemma decoding_ignores_tag_case_witness :
  ∃ p1 p2,
    parseUartLine (E := decimal_engine) "temp_hum , 21,40 " = Some p1 ∧
    parseUartLine (E := decimal_engine) "TEMP_HUM,21,40" = Some p2 ∧
    patch p1 = patch p2 ∧ metrics p1 = metrics p2 ∧ signals p1 = signals p2 ∧
    patch p2 !! "temperature" = Some (jnum 21).
Proof.
  eexists _, _. split; [reflexivity|]. split; [reflexivity|].
  pose proof (decoding_ignores_tag_case (E := decimal_engine)
                "temp_hum , 21,40 " "TEMP_HUM,21,40" _ _
                eq_refl eq_refl eq_refl eq_refl) as (Hp & Hm & Hs).
  split; [exact Hp|]. split; [exact Hm|]. split; [exact Hs|].
  vm_compute. reflexivity.
Defined.

(** An [HRV_DATA] line with three fields. *)
Lemma short_hrv_line_is_raw_only_witness :
  parseUartLine (E := decimal_engine) "HRV_DATA,810,52,41"
  = Some {| patch := ∅; metrics := ∅; signals := ∅; raw := "HRV_DATA,810,52,41" |}.
Proof.
  apply (short_hrv_line_is_raw_only (E := decimal_engine) "HRV_DATA,810,52,41").
  - discriminate.
  - reflexivity.
  - vm_compute. lia.
Defined.


(** ** Ingestion: lines, documents, errors *)

Section MoreIngestionProperties.
Context {E : JsEngine} {B : Bson}.
Variable SPEC : string → list (string * Rule).






Lemma rebuilt_lookup (k : string) (a b c : jsval) :
  (list_to_map [("metrics", a); ("signals", b); ("raw", c)] : gmap string jsval) !! k
  = if decide (k = "metrics") then Some a
    else if decide (k = "signals") then Some b
    else if decide (k = "raw") then Some c
    else None.
Proof.
  cbn [list_to_map foldr]. rewrite !lookup_insert, lookup_empty.
  cbn [fst snd].
  repeat case_decide; subst; first [reflexivity | congruence].
Qed.



Lemma fold_patch_last (ls : list jsval) (ln : jsval) (m : Merged) (p : parsed) :
  parseUartLine (ToString ln) = Some p →
  mergedPatch (fold_left merge_line (ls ++ [ln]) m)
  = Object_assign (mergedPatch (fold_left merge_line ls m)) (patch p).
Proof.
  intros Hp. rewrite fold_left_app. cbn [fold_left]. unfold merge_line at 1.
  now rewrite Hp.
Qed.

(** X5. In the document the request path stores, a flat field set by
    the last line overrides the payload's value, also when the line's
    value is [undefined] (a field that is not a finite number); a field
    that no line sets keeps the value of [base]. *)
Theorem last_line_overrides_payload (id : string) (now : Z) (data : jsval) (k : string) :
  k ∉ rebuilt_keys →
  (∀ ls ln p v,
     lines_of data = (ls ++ [ln])%list →
     parseUartLine (ToString ln) = Some p →
     patch p !! k = Some v →
     http_health_doc id now data !! k = Some v) ∧
  (mergedPatch (merge_lines data) !! k = None →
   http_health_doc id now data !! k = base_record id now data !! k).
Proof.
  intros Hk.
  assert (Hnone : ∀ a b c,
            (list_to_map [("metrics", a); ("signals", b); ("raw", c)]
               : gmap string jsval) !! k = None).
  { intros a b c. rewrite rebuilt_lookup.
    repeat (destruct (decide _) as [->|];
            [destruct Hk; unfold rebuilt_keys;
             repeat first [apply list_elem_of_here | apply list_elem_of_further]|]).
    reflexivity. }
  unfold http_health_doc, Object_assign. cbv zeta. split.
  - intros ls ln p v Hlines Hp Hv.
    rewrite lookup_union_r by apply Hnone.
    apply lookup_union_Some_l.
    unfold merge_lines. rewrite Hlines, (fold_patch_last _ _ _ _ Hp).
    unfold Object_assign. now apply lookup_union_Some_l.
  - intros Hm. rewrite lookup_union_r by apply Hnone.
    now rewrite lookup_union_r.
Qed.

(** X6. The request path refuses a request that lacks one of its three
    members with 400 and a request for an unknown device with 404, and in
    both cases changes nothing. *)
Theorem ingest_refusals_change_nothing (clk : Clock) (id type : string)
    (data : jsval) (w : World) :
  (id = "" ∨ type = "" ∨ truthy data = false →
   ingest clk id type data w = (Json 400 "deviceId, type, and data are required", w)) ∧
  (id ≠ "" → type ≠ "" → truthy data = true → devices w !! id = None →
   ingest clk id type data w = (Json 404 ("Device " +:+ id +:+ " not found"), w)).
Proof.
  unfold ingest. split.
  - intros [-> | [-> | ->]]; [reflexivity| |].
    + now rewrite orb_true_r.
    + now rewrite orb_true_r.
  - intros Hid Hty Hdata Hd.
    destruct (String.eqb_spec id ""); [contradiction|].
    destruct (String.eqb_spec type ""); [contradiction|].
    now rewrite Hdata, Hd.
Qed.


(** X8. Sleep records are never gated.  On the request path a sleep
    request of a known device appends one sleep record; on the pub/sub
    path a sleep message appends one whether or not the device is known
    and whatever the tracker says.  The record holds the payload's
    [sleepQuality] and [duration], ["Unknown"] and 0 for falsy ones; health
    records and the tracker are untouched. *)
Theorem sleep_is_never_gated (clk : Clock) (id : string) (data : jsval) (w : World) :
  let record := {| s_deviceId := id; s_timestamp := t_stamp clk;
                   s_sleepQuality := js_or (prop data "sleepQuality") (JStr "Unknown");
                   s_duration := js_or (prop data "duration") (jnum 0) |} in
  id ≠ "" →
  (truthy data = true → is_Some (devices w !! id) →
   ∃ w', ingest clk id "sleep" data w = (Json 200 "Sleep data saved", w') ∧
         sleepData w' = (sleepData w ++ [record])%list ∧
         healthData w' = healthData w ∧ presenceState w' = presenceState w) ∧
  (∀ topic, topic_deviceId topic = Some id → includes "/health" topic = false →
     includes "/sleep" topic = true → nullish data = false →
     let w' := on_message SPEC clk topic data w in
     sleepData w' = (sleepData w ++ [record])%list ∧
     healthData w' = healthData w ∧ presenceState w' = presenceState w).
Proof.
  intros record Hid. split.
  - intros Hdata [dev Hd]. unfold ingest.
    destruct (String.eqb_spec id ""); [contradiction|].
    rewrite Hdata, Hd. cbn [orb negb String.eqb Ascii.eqb Bool.eqb].
    eexists. split; [reflexivity|]. repeat split.
  - intros topic Ht Hh Hs Hdata w'. unfold w', on_message.
    rewrite Ht, Hh, Hs. destruct (String.eqb_spec id ""); [contradiction|].
    unfold sleep_message. rewrite Hdata.
    destruct (devices w !! id); repeat split.
Qed.




(** X11. A message concerns the device of its topic only: it leaves the
    users and the profiles alone and, for every other device, the device's
    document, its tracker entry and its stored records. *)
Theorem message_touches_its_device_only (clk : Clock) (topic : string) (data : jsval)
    (w : World) :
  let w' := on_message SPEC clk topic data w in
  users w' = users w ∧
  profiles w' = profiles w ∧
  ∀ j, topic_deviceId topic ≠ Some j →
    devices w' !! j = devices w !! j ∧
    presenceState w' !! j = presenceState w !! j ∧
    ∀ r, h_deviceId r = j → r ∈ healthData w → r ∈ healthData w'.
Proof.
  intros w'. unfold w', on_message.
  destruct (topic_deviceId topic) as [id|]; [|by repeat split].
  destruct (String.eqb id ""); [by repeat split|].
  set (w1 := match devices w !! id with
             | Some _ => mark_active id (t_active clk) w
             | None => w
             end).
  assert (H1 : users w1 = users w ∧ profiles w1 = profiles w ∧
               healthData w1 = healthData w ∧ presenceState w1 = presenceState w ∧
               ∀ j, Some id ≠ Some j → devices w1 !! j = devices w !! j).
  { unfold w1. destruct (devices w !! id); repeat split.
    intros j Hj. unfold mark_active. cbn [devices with_devices].
    rewrite lookup_alter_ne; [reflexivity|congruence]. }
  destruct H1 as (Hu & Hp & Hh & Hs & Hd).
  assert (Hgate : ∀ p, users (presence_gate clk id p w1) = users w ∧
            profiles (presence_gate clk id p w1) = profiles w ∧
            devices (presence_gate clk id p w1) = devices w1 ∧
            (∀ j, Some id ≠ Some j →
               presenceState (presence_gate clk id p w1) !! j = presenceState w !! j ∧
               ∀ r, h_deviceId r = j → r ∈ healthData w →
                    r ∈ healthData (presence_gate clk id p w1))).
  { intros p. unfold presence_gate. cbv zeta.
    destruct (_ && _); cbn [users profiles devices presenceState healthData
                            with_presenceState with_healthData retract];
      (split; [exact Hu|]; split; [exact Hp|]; split; [reflexivity|]);
      intros j Hj; (split; [rewrite lookup_insert_ne by congruence; now rewrite Hs|]);
      intros r Hr Hin; rewrite Hh.
    - apply list_elem_of_filter. split; [|exact Hin]. intros [Hid _]. congruence.
    - exact Hin. }
  destruct (includes "/health" topic).
  - unfold health_message. destruct (nullish data).
    { rewrite Hu, Hp. split; [reflexivity|]. split; [reflexivity|].
      intros j Hj. rewrite (Hd j Hj), Hs, Hh. by repeat split. }
    cbv zeta.
    set (p := presence_of (base_record id (t_stamp clk) data)).
    destruct (Hgate p) as (Hgu & Hgp & Hgd & Hgj).
    assert (Hdone : users (presence_gate clk id p w1) = users w ∧
              profiles (presence_gate clk id p w1) = profiles w ∧
              ∀ j, Some id ≠ Some j →
                devices (presence_gate clk id p w1) !! j = devices w !! j ∧
                presenceState (presence_gate clk id p w1) !! j = presenceState w !! j ∧
                ∀ r, h_deviceId r = j → r ∈ healthData w →
                     r ∈ healthData (presence_gate clk id p w1)).
    { split; [exact Hgu|]. split; [exact Hgp|]. intros j Hj.
      rewrite Hgd, (Hd j Hj). destruct (Hgj j Hj). by repeat split. }
    destruct (num_eq p (Fin 0)); [exact Hdone|].
    destruct (devices w !! id) as [dev|]; [|exact Hdone].
    destruct Hdone as (Hdu & Hdp & Hdj).
    unfold rule_stage. cbv zeta.
    destruct (violations _); [destruct (changes _)|];
      cbn [users profiles devices presenceState healthData
           with_presenceState with_healthData save_health];
      (split; [exact Hdu|]; split; [exact Hdp|]);
      intros j Hj; destruct (Hdj j Hj) as (Hj1 & Hj2 & Hj3);
      (split; [exact Hj1|]);
      (split; [rewrite lookup_insert_ne by congruence; exact Hj2|]);
      intros r Hr Hin; try (apply elem_of_app; left); now apply Hj3.
  - destruct (includes "/sleep" topic).
    + unfold sleep_message. destruct (nullish data);
        cbn [users profiles devices presenceState healthData save_sleep with_sleepData];
        rewrite Hu, Hp; (split; [reflexivity|]; split; [reflexivity|]);
        intros j Hj; rewrite (Hd j Hj), Hs, Hh; by repeat split.
    + rewrite Hu, Hp. split; [reflexivity|]. split; [reflexivity|].
      intros j Hj. rewrite (Hd j Hj), Hs, Hh. by repeat split.
Qed.






















Lemma no_slash_cons (c : ascii) (s : string) :
  includes "/" (String c s) = false → c ≠ "/"%char ∧ includes "/" s = false.
Proof.
  cbn [includes String.prefix]. intros H. apply orb_false_elim in H as [Hc Hs].
  split; [|exact Hs]. intros ->.
  destruct (ascii_dec "/" "/"); [by destruct s|congruence].
Qed.

Lemma append_cons (c : ascii) (s t : string) :
  String c s +:+ t = String c (s +:+ t).
Proof. reflexivity. Qed.

Lemma healthTopic_eq (id : string) :
  healthTopic id = String "/" (id +:+ String "/" "health").
Proof. reflexivity. Qed.

Lemma sleepTopic_eq (id : string) :
  sleepTopic id = String "/" (id +:+ String "/" "sleep").
Proof. reflexivity. Qed.

Lemma split_first (s t : string) :
  includes "/" s = false →
  split "/" (s +:+ String "/" t) = s :: split "/" t.
Proof.
  induction s as [|c s IH]; intros Hs; [reflexivity|].
  apply no_slash_cons in Hs as [Hc Hs]. rewrite append_cons. cbn [split].
  rewrite (IH Hs). by rewrite (proj2 (Ascii.eqb_neq c "/") Hc).
Qed.

Lemma includes_app (sub s t : string) :
  includes sub t = true → includes sub (s +:+ t) = true.
Proof.
  intros Ht. induction s as [|c s IH]; [exact Ht|].
  rewrite append_cons. cbn [includes]. rewrite IH. apply orb_true_r.
Qed.

Lemma prefix_before_slash (p s t : string) :
  includes "/" p = false →
  String.prefix p (s +:+ String "/" t) = String.prefix p s.
Proof.
  revert s. induction p as [|a p IH]; intros s Hp; [by destruct s|].
  apply no_slash_cons in Hp as [Ha Hp].
  destruct s as [|b s]; rewrite ?append_cons; cbn [String.prefix].
  - change ("" +:+ String "/" t) with (String "/" t). cbn [String.prefix].
    destruct (ascii_dec a "/"); [contradiction|reflexivity].
  - destruct (ascii_dec a b); [by apply IH|reflexivity].
Qed.

Lemma no_health_inside (s : string) :
  includes "/" s = false → includes "/health" (s +:+ "/sleep") = false.
Proof.
  induction s as [|c s IH]; intros Hs; [reflexivity|].
  apply no_slash_cons in Hs as [Hc Hs].
  rewrite append_cons. cbn [includes]. rewrite (IH Hs), orb_false_r.
  cbn [String.prefix]. destruct (ascii_dec "/" c); [by subst c|reflexivity].
Qed.

(** X16. The topics a device is subscribed to.  For a device id that is
    not empty and holds no slash, a message on the device's health topic
    is handled by the health branch for that device; one on its sleep
    topic by the sleep branch, unless the id begins with [health]: then
    the topic contains [/health] and the health branch takes the sleep
    message. *)
Theorem subscribed_topics_reach_their_branch (clk : Clock) (id : string)
    (data : jsval) (w : World) :
  id ≠ "" →
  includes "/" id = false →
  let w1 := match devices w !! id with
            | Some _ => mark_active id (t_active clk) w
            | None => w
            end in
  on_message SPEC clk (healthTopic id) data w
  = health_message SPEC clk id (devices w !! id) data w1 ∧
  on_message SPEC clk (sleepTopic id) data w
  = if String.prefix "health" id
    then health_message SPEC clk id (devices w !! id) data w1
    else sleep_message clk id data w1.
Proof.
  intros Hid Hs w1.
  assert (Hne : String.eqb id "" = false) by (by apply String.eqb_neq).
  assert (Hth : topic_deviceId (healthTopic id) = Some id).
  { unfold topic_deviceId. rewrite healthTopic_eq.
    change (split "/" (String "/" ?s)) with ("" :: split "/" s).
    by rewrite (split_first id "health" Hs). }
  assert (Hts : topic_deviceId (sleepTopic id) = Some id).
  { unfold topic_deviceId. rewrite sleepTopic_eq.
    change (split "/" (String "/" ?s)) with ("" :: split "/" s).
    by rewrite (split_first id "sleep" Hs). }
  assert (Hih : includes "/health" (healthTopic id) = true).
  { unfold healthTopic. by apply (includes_app "/health" "/"), includes_app. }
  assert (Hss : includes "/sleep" (sleepTopic id) = true).
  { unfold sleepTopic. by apply (includes_app "/sleep" "/"), includes_app. }
  assert (Hhs : includes "/health" (sleepTopic id) = String.prefix "health" id).
  { rewrite sleepTopic_eq. cbn [includes].
    rewrite (no_health_inside id Hs), orb_false_r.
    change (String.prefix "/health" (String "/" ?s)) with (String.prefix "health" s).
    by apply prefix_before_slash. }
  split.
  - by apply on_health_message.
  - unfold on_message. rewrite Hts, Hne, Hhs, Hss. cbv zeta.
    reflexivity.
Qed.

End MoreIngestionProperties.

(** The payload says 80 and its last line says 75. *)
Lemma last_line_overrides_payload_witness :
  http_health_doc (E := decimal_engine) "A" 1000001%Z with_lines !! "heartRate"
  = Some (jnum 75).
Proof.
  refine (proj1 (last_line_overrides_payload (E := decimal_engine)
                   "A" 1000001%Z with_lines "heartRate" _)
            [JStr "TEMP_HUM,21,40"] (JStr "HR,75")
            {| patch := {[ "heartRate" := jnum 75 ]}; metrics := ∅; signals := ∅;
               raw := "HR,75" |}
            (jnum 75) _ _ _).
  - unfold rebuilt_keys. intros Hin.
    repeat (apply elem_of_cons in Hin as [Hin|Hin]; [discriminate|]). inversion Hin.
  - vm_compute. reflexivity.
  - vm_compute. reflexivity.
  - vm_compute. reflexivity.
Defined.

(** No device [C] is registered. *)
Lemma ingest_refusals_change_nothing_witness :
  ingest (E := decimal_engine) (B := hex_ids) noon "C" "health" pulse_75 monitored
  = (Json 404 "Device C not found", monitored).
Proof.
  apply (proj2 (ingest_refusals_change_nothing (E := decimal_engine) (B := hex_ids)
                  noon "C" "health" pulse_75 monitored)).
  - discriminate.
  - discriminate.
  - reflexivity.
  - vm_compute. reflexivity.
Defined.


(** A sleep message that says nobody is there. *)
Lemma sleep_is_never_gated_witness :
  sleepData (on_message (E := decimal_engine) (B := hex_ids)
               band_rules noon "/A/sleep" absent_sleep monitored)
  = [ {| s_deviceId := "A"; s_timestamp := 1000001%Z; s_sleepQuality := JStr "good";
         s_duration := jnum 0 |} ].
Proof.
  destruct (proj2 (sleep_is_never_gated (E := decimal_engine) (B := hex_ids)
                     band_rules noon "A" absent_sleep monitored ltac:(discriminate))
              "/A/sleep" eq_refl eq_refl eq_refl eq_refl) as (Hs & _).
  exact Hs.
Defined.







(** A device id that begins with [health]: its sleep topic is taken
    for a health topic. *)
Lemma subscribed_topics_reach_their_branch_witness :
  on_message (E := decimal_engine) (B := hex_ids)
    band_rules noon "/health7/sleep" absent_sleep monitored
  = health_message (E := decimal_engine) band_rules noon "health7" None absent_sleep
      monitored.
Proof.
  exact (proj2 (subscribed_topics_reach_their_branch (E := decimal_engine) (B := hex_ids)
                  band_rules noon "health7" absent_sleep monitored
                  ltac:(discriminate) eq_refl)).
Defined.

(** ** Activation and the active-device query *)

Section MoreActivationProperties.
Context {B : Bson}.

(** X17. An activation that is not answered with 200 changes nothing,
    and it is answered with 200 exactly when the device exists, is not
    active on another profile, and the requested profile id casts to an
    ObjectId. *)
Theorem activate_refusals_change_nothing (now : Z) (id pid : string) (w : World) :
  (∀ r w', activate now id pid w = (r, w') → (∀ m, r ≠ Json 200 m) → w' = w) ∧
  ((∃ m w', activate now id pid w = (Json 200 m, w')) ↔
   ∃ d target, devices w !! id = Some d ∧ other_profile d pid = None ∧
               castObjectId pid = Some target).
Proof.
  split; [|split].
  - intros r w'. unfold activate.
    destruct (String.eqb pid ""); [by intros [= <- <-]|].
    destruct (devices w !! id) as [d|]; [|by intros [= <- <-]].
    destruct (other_profile d pid); [by intros [= <- <-]|].
    destruct (castObjectId pid); [|by intros [= <- <-]].
    cbv zeta. intros [= <- <-] Hno. by destruct (Hno _ eq_refl).
  - intros (m & w' & Hrun).
    destruct (activate_200 _ _ _ _ _ _ Hrun) as (d & target & Hd & Ho & Hc & _).
    by exists d, target.
  - intros (d & target & Hd & Ho & Hc).
    destruct (activate_succeeds now _ _ _ _ _ Hd Ho Hc) as [m Hrun].
    by eexists _, _.
Qed.

Lemma users_save_activated (id : string) (d : Device) (target : ObjectId) (now : Z)
    (w : World) :
  users (save_activated id d target now (deactivate_profile target w)) = users w.
Proof. reflexivity. Qed.

(** X18. What a successful activation leaves alone.  Besides the
    activated device, only devices bound to the requested profile change,
    and only in their status; no device is added or removed; the stored
    records, the trackers and the profiles stay as they were; of the
    users only the owner of the device changes, whose [activeDevice]
    becomes the device and whose [activeDevices] is not touched. *)
Theorem activation_touches_one_profile (now : Z) (id pid : string) (w w' : World)
    (m : string) (d : Device) (target : ObjectId) :
  activate now id pid w = (Json 200 m, w') →
  devices w !! id = Some d →
  castObjectId pid = Some target →
  (∀ i, i ≠ id → devices w' !! i = deactivated target <$> devices w !! i) ∧
  (∀ i x, i ≠ id → devices w !! i = Some x → profileId x ≠ Some target →
          devices w' !! i = Some x) ∧
  dom (devices w') = dom (devices w) ∧
  healthData w' = healthData w ∧ sleepData w' = sleepData w ∧
  presenceState w' = presenceState w ∧ profiles w' = profiles w ∧
  (∀ u, userId d ≠ Some u → users w' !! u = users w !! u) ∧
  (∀ u, userId d = Some u →
        users w' !! u = set_activeDevice (Some (_id d)) <$> users w !! u).
Proof.
  intros Hrun Hd Hc.
  destruct (activate_200 _ _ _ _ _ _ Hrun) as (d0 & t0 & Hd0 & _ & Hc0 & ->).
  assert (d0 = d) as -> by congruence. assert (t0 = target) as -> by congruence.
  assert (Hother : ∀ i, i ≠ id →
            devices (point_user d (save_activated id d target now
                                     (deactivate_profile target w))) !! i
            = deactivated target <$> devices w !! i).
  { intros i Hi. rewrite devices_after_activation. by rewrite decide_False. }
  split; [exact Hother|]. split.
  { intros i x Hi Hx Hp. rewrite (Hother i Hi), Hx. cbn [fmap option_fmap option_map].
    unfold deactivated. by rewrite decide_False. }
  split.
  { apply set_eq. intros i. rewrite !elem_of_dom, devices_after_activation.
    destruct (decide (id = i)); by rewrite !fmap_is_Some. }
  assert (Hrest : ∀ w0, healthData (point_user d w0) = healthData w0 ∧
                        sleepData (point_user d w0) = sleepData w0 ∧
                        presenceState (point_user d w0) = presenceState w0 ∧
                        profiles (point_user d w0) = profiles w0).
  { intros w0. unfold point_user. by destruct (userId d). }
  destruct (Hrest (save_activated id d target now (deactivate_profile target w)))
    as (-> & -> & -> & ->).
  repeat (split; [reflexivity|]).
  unfold point_user. split.
  - intros u Hu. destruct (userId d) as [u0|]; [|reflexivity].
    cbn [users with_users]. rewrite users_save_activated.
    rewrite lookup_alter_ne; [reflexivity|congruence].
  - intros u ->. cbn [users with_users]. rewrite users_save_activated.
    by rewrite lookup_alter_eq.
Qed.

Lemma findOne_None (P : Device → Prop) `{∀ d, Decision (P d)} (m : gmap string Device) :
  findOne P m = None ↔ ∀ i d, m !! i = Some d → ¬ P d.
Proof.
  unfold findOne. split.
  - intros Hnone i d Hd HP.
    assert (Hin : (i, d) ∈ map_to_list (filter (λ kv, P kv.2) m)).
    { apply elem_of_map_to_list, map_lookup_filter_Some. by split. }
    destruct (map_to_list (filter (λ kv, P kv.2) m)) as [|x l]; [inversion Hin|].
    discriminate Hnone.
  - intros Hall.
    destruct (map_to_list (filter (λ kv, P kv.2) m)) as [|[i d] l] eqn:Hl;
      [reflexivity|].
    assert (Hin : (i, d) ∈ map_to_list (filter (λ kv, P kv.2) m))
      by (rewrite Hl; left).
    apply elem_of_map_to_list, map_lookup_filter_Some in Hin as [Hd HP].
    destruct (Hall i d Hd HP).
Qed.

Lemma findOne_Some (P : Device → Prop) `{∀ d, Decision (P d)} (m : gmap string Device)
    (d : Device) :
  findOne P m = Some d → ∃ i, m !! i = Some d ∧ P d.
Proof.
  unfold findOne.
  destruct (map_to_list (filter (λ kv, P kv.2) m)) as [|[i x] l] eqn:Hl;
    [discriminate|].
  intros [= <-]. exists i.
  assert (Hin : (i, x) ∈ map_to_list (filter (λ kv, P kv.2) m))
    by (rewrite Hl; left).
  by apply elem_of_map_to_list, map_lookup_filter_Some in Hin.
Qed.

Lemma active_device_cast (pid : string) (w : World) (target : ObjectId) :
  castObjectId pid = Some target →
  (active_device pid w = Some None ↔ ∀ i, ¬ active_for target w i) ∧
  (∀ name, active_device pid w = Some (Some name) →
     ∃ i d, devices w !! i = Some d ∧ deviceId d = name ∧ active_for target w i).
Proof.
  unfold active_device. intros ->. split; [split|].
  - intros [= Hnone]. apply fmap_None in Hnone.
    pose proof (proj1 (findOne_None _ _) Hnone) as Hno.
    intros i (d & Hd & Hp & Hs). by apply (Hno i d Hd).
  - intros Hall. f_equal. apply fmap_None. apply (proj2 (findOne_None _ _)).
    intros i d Hd [Hp Hs]. apply (Hall i). by exists d.
  - intros name [= Hname]. apply fmap_Some in Hname as (d & Hfind & ->).
    apply findOne_Some in Hfind as (i & Hd & Hp & Hs).
    exists i, d. repeat split; try done. by exists d.
Qed.

(** X19. The active-device query.  For a profile id that casts, the
    route answers [null] exactly when no device is active for the
    profile, and a [deviceId] it answers is that of a device that is
    active for the profile; a profile id that does not cast is answered
    with the 500 of the [catch] block. *)
Theorem active_device_is_an_active_one (pid : string) (w : World) :
  (castObjectId pid = None → active_device pid w = None) ∧
  (∀ target, castObjectId pid = Some target →
     (active_device pid w = Some None ↔ ∀ i, ¬ active_for target w i) ∧
     (∀ name, active_device pid w = Some (Some name) →
        ∃ i d, devices w !! i = Some d ∧ deviceId d = name ∧ active_for target w i)).
Proof.
  split.
  - unfold active_device. by intros ->.
  - intros target. apply active_device_cast.
Qed.

(** X20. Activation, then the query.  After a successful activation the
    active-device query of the profile answers the activated device
    (the [deviceId] its document holds), unless the device was already
    active on that profile: then it answers [null]. *)
Theorem query_after_activation (now : Z) (id pid : string) (w : World)
    (d : Device) (target : ObjectId) :
  devices w !! id = Some d →
  other_profile d pid = None →
  castObjectId pid = Some target →
  ∃ m w', activate now id pid w = (Json 200 m, w') ∧
    active_device pid w'
    = Some (if decide (status d = active ∧ profileId d = Some target)
            then None else Some (deviceId d)).
Proof.
  intros Hd Ho Hc.
  destruct (activate_succeeds now _ _ _ _ _ Hd Ho Hc) as [m Hrun].
  eexists _, _. split; [exact Hrun|].
  set (w' := point_user d (save_activated id d target now (deactivate_profile target w))).
  destruct (active_device_cast pid w' target Hc) as [Hnull Hname].
  assert (Hid : ∀ x, devices w' !! id = Some x → deviceId x = deviceId d).
  { intros x. unfold w'. rewrite devices_after_activation, decide_True, Hd by done.
    intros [= <-]. unfold write, assign, deactivated.
    by repeat (case_decide || case_match). }
  destruct (decide (status d = active ∧ profileId d = Some target)) as [[Hs Hp]|Hfresh].
  - apply Hnull. intros i (x & Hx & Hpx & Hsx). unfold w' in Hx.
    rewrite devices_after_activation in Hx.
    destruct (decide (id = i)) as [<-|Hne].
    + rewrite Hd in Hx. apply fmap_Some in Hx as (y & [= <-] & ->). revert Hsx.
      unfold assign. rewrite (decide_True (P := active = status d)) by done.
      rewrite (decide_True (P := Some target = profileId d)) by done.
      unfold deactivated.
      rewrite (decide_True (P := profileId d = Some target)) by done.
      cbn [write]. by destruct (decide (Some now = lastActiveAt d)).
    + apply fmap_Some in Hx as (y & Hy & ->).
      revert Hpx Hsx. unfold deactivated.
      destruct (decide (profileId y = Some target)); [done|]. by intros ?.
  - destruct (activate_fresh now _ _ _ _ _ Hd Ho Hc Hfresh) as (m' & w'' & Hrun' & Hact).
    assert (w'' = w') as -> by (rewrite Hrun in Hrun'; by injection Hrun').
    destruct (active_device pid w') as [[name|]|] eqn:Hres.
    + destruct (Hname name eq_refl) as (i & x & Hx & <- & Hi).
      apply Hact in Hi as ->. by rewrite (Hid x Hx).
    + exfalso. destruct Hnull as [Hnull _]. apply (Hnull eq_refl id). by apply Hact.
    + unfold active_device in Hres. by rewrite Hc in Hres.
Qed.

End MoreActivationProperties.

(** [night] is the name of the profile, not its id: the cast fails and
    nothing is written. *)
Lemma activate_refusals_change_nothing_witness :
  (activate (B := hex_ids) 100 "A" "night" two_devices).1 = ServerError ∧
  (activate (B := hex_ids) 100 "A" "night" two_devices).2 = two_devices.
Proof.
  split; [vm_compute; reflexivity|].
  refine (proj1 (activate_refusals_change_nothing (B := hex_ids) 100 "A" "night"
                   two_devices)
            (activate (B := hex_ids) 100 "A" "night" two_devices).1 _
            (surjective_pairing _) _).
  intros m. vm_compute. discriminate.
Defined.

(** Device [A] is activated on profile [0x5]: device [B] and its owner
    stay as they were, the owner of [A] points to [A]. *)
Lemma activation_touches_one_profile_witness :
  let w' : @World hex_ids := (activate 100 "A" "0x5" two_devices).2 in
  devices w' !! "B" = Some device_B ∧
  users w' !! oid 8 = Some no_user ∧
  users w' !! oid 7 = Some {| activeDevice := Some (oid 1); activeDevices := [] |}.
Proof.
  intros w'.
  assert (Hrun : activate (B := hex_ids) 100 "A" "0x5" two_devices
                 = (Json 200 (activated_on "A" "night"), w')).
  { rewrite (surjective_pairing (activate _ _ _ _)). f_equal; vm_compute; reflexivity. }
  destruct (activation_touches_one_profile (B := hex_ids) 100 "A" "0x5" two_devices w'
              (activated_on "A" "night") device_A (oid 5) Hrun)
    as (_ & Hkept & _ & _ & _ & _ & _ & Hothers & Howner);
    [vm_compute; reflexivity | reflexivity | ].
  split; [|split].
  - apply Hkept; [discriminate | vm_compute; reflexivity | discriminate].
  - rewrite Hothers by discriminate. vm_compute. reflexivity.
  - rewrite (Howner (oid 7) eq_refl). vm_compute. reflexivity.
Defined.

(** The query with the profile's name instead of its id, and the query
    after an activation. *)
Lemma active_device_is_an_active_one_witness :
  let w' : @World hex_ids := (activate 100 "A" "0x5" two_devices).2 in
  active_device "night" w' = None ∧
  ∃ i d, devices w' !! i = Some d ∧ deviceId d = "A" ∧ active_for (oid 5) w' i.
Proof.
  intros w'.
  destruct (active_device_is_an_active_one (B := hex_ids) "0x5" w') as [_ Hcast].
  destruct (Hcast (oid 5) eq_refl) as [_ Hname].
  split.
  - apply (proj1 (active_device_is_an_active_one (B := hex_ids) "night" w')).
    reflexivity.
  - apply Hname. vm_compute. reflexivity.
Defined.

Lemma query_after_activation_witness :
  ∃ m w', activate (B := hex_ids) 100 "A" "0x5" two_devices = (Json 200 m, w') ∧
          active_device "0x5" w' = Some (Some "A").
Proof.
  destruct (query_after_activation (B := hex_ids) 100 "A" "0x5" two_devices
              device_A (oid 5))
    as (m & w' & Hrun & Hquery);
    [vm_compute; reflexivity | reflexivity | reflexivity | ].
  exists m, w'. split; [exact Hrun|]. rewrite Hquery. reflexivity.
Defined.

(** ** The controller: ownership and deletion *)

Section MoreControllerProperties.
Context {B : Bson}.

Lemma listed_iff (ids : list ObjectId) (o : ObjectId) :
  existsb (λ i, String.eqb (hexString i) (hexString o)) ids = true ↔ o ∈ ids.
Proof.
  rewrite existsb_exists. split.
  - intros (i & Hin & Heq). apply String.eqb_eq, hexString_inj in Heq as ->.
    by apply list_elem_of_In.
  - intros Hin. exists o. split; [by apply list_elem_of_In|apply String.eqb_refl].
Qed.

Lemma set_activeDevices_same (user : User) :
  set_activeDevices (activeDevices user) user = user.
Proof. by destruct user. Qed.

(** What a successful [setActiveDevice] leaves. *)
Lemma setActiveDevice_run (requester : ObjectId) (id : string) (w : World)
    (u : User) (d : Device) :
  id ≠ "" → users w !! requester = Some u → devices w !! id = Some d →
  let listed := if decide (_id d ∈ activeDevices u) then activeDevices u
                else (activeDevices u ++ [_id d])%list in
  ∃ w', setActiveDevice requester id w = (Json 200 (set_as_active (deviceId d)), w') ∧
        devices w' = <[id := set_userId (Some requester) (set_status active d)]> (devices w) ∧
        users w' = <[requester := set_activeDevices listed u]> (users w) ∧
        profiles w' = profiles w ∧ healthData w' = healthData w ∧
        sleepData w' = sleepData w ∧ presenceState w' = presenceState w.
Proof.
  intros Hid Hu Hd listed. unfold setActiveDevice.
  destruct (String.eqb_spec id "") as [|_]; [contradiction|].
  rewrite Hu, Hd. cbv zeta.
  assert (Hdev : alter (λ x, set_userId (Some requester) (set_status active x)) id
                   (devices w)
                 = <[id := set_userId (Some requester) (set_status active d)]> (devices w)).
  { apply map_eq. intros i. rewrite lookup_alter, lookup_insert.
    destruct (decide (id = i)) as [->|]; [now rewrite Hd|reflexivity]. }
  cbn [_id set_userId set_status].
  destruct (existsb _ (activeDevices u)) eqn:Hlisted.
  - eexists. split; [reflexivity|]. split; [exact Hdev|].
    apply listed_iff in Hlisted. unfold listed. rewrite decide_True by done.
    rewrite set_activeDevices_same. cbn [users with_devices].
    by rewrite insert_id.
  - eexists. split; [reflexivity|]. split; [exact Hdev|].
    assert (Hnot : _id d ∉ activeDevices u).
    { intros Hin. apply listed_iff in Hin. congruence. }
    unfold listed. rewrite decide_False by done.
    split; [|done]. cbn [users with_users with_devices]. apply map_eq. intros i.
    rewrite lookup_alter, lookup_insert.
    destruct (decide (requester = i)) as [->|]; [now rewrite Hu|reflexivity].
Qed.

(** X21. [setActiveDevice] asks for no ownership either.  Whenever the
    requesting user and the device exist, the device becomes active and
    the requester becomes its owner, whoever owned it before; its [_id]
    is in the requester's [activeDevices] afterwards, once if the list
    held no duplicate; the requester's [activeDevice] pointer and the
    device's profile are not touched.  Every other answer changes
    nothing. *)
Theorem activate_by_any_user (requester : ObjectId) (id : string) (w : World) :
  (∀ u d, id ≠ "" → users w !! requester = Some u → devices w !! id = Some d →
     ∃ w', setActiveDevice requester id w = (Json 200 (set_as_active (deviceId d)), w') ∧
       devices w' = <[id := set_userId (Some requester) (set_status active d)]> (devices w) ∧
       (∃ u', users w' = <[requester := u']> (users w) ∧
              activeDevice u' = activeDevice u ∧
              (∀ i, i ∈ activeDevices u' ↔ i ∈ activeDevices u ∨ i = _id d) ∧
              (NoDup (activeDevices u) → NoDup (activeDevices u')))) ∧
  (∀ code m w', setActiveDevice requester id w = (Json code m, w') →
     code ≠ 200 → w' = w).
Proof.
  split.
  - intros u d Hid Hu Hd.
    destruct (setActiveDevice_run requester id w u d Hid Hu Hd)
      as (w' & Hrun & Hdev & Husers & _).
    exists w'. split; [exact Hrun|]. split; [exact Hdev|].
    eexists. split; [exact Husers|]. split; [reflexivity|].
    cbn [activeDevices set_activeDevices].
    destruct (decide (_id d ∈ activeDevices u)) as [Hin|Hnot]; split.
    + intros i. split; [by left|]. by intros [?| ->].
    + done.
    + intros i. rewrite elem_of_app, list_elem_of_singleton. tauto.
    + intros Hnd. apply NoDup_app. split; [exact Hnd|].
      split; [|apply NoDup_singleton].
      intros i Hin Heq. apply list_elem_of_singleton in Heq as ->. by apply Hnot.
  - intros code m w'. unfold setActiveDevice.
    destruct (String.eqb id ""); [by intros [= <- <- <-]|].
    destruct (users w !! requester); [|by intros [= <- <- <-]].
    destruct (devices w !! id); [|by intros [= <- <- <-]].
    cbv zeta. destruct (existsb _ _); intros [= <- _ _]; congruence.
Qed.

(** X22. [setActiveDevice] does not deactivate the other devices of
    the profile: when the device is bound to a profile that has an
    active device already, both are active for the profile afterwards. *)
Theorem second_active_device (requester : ObjectId) (id j : string) (w : World)
    (u : User) (d : Device) (p : ObjectId) :
  id ≠ "" →
  users w !! requester = Some u →
  devices w !! id = Some d →
  profileId d = Some p →
  j ≠ id →
  active_for p w j →
  let w' := (setActiveDevice requester id w).2 in
  active_for p w' j ∧ active_for p w' id ∧ ¬ exclusive p w'.
Proof.
  intros Hid Hu Hd Hp Hj Hact w'.
  destruct (setActiveDevice_run requester id w u d Hid Hu Hd)
    as (w1 & Hrun & Hdev & _).
  assert (Hw' : devices w'
                = <[id := set_userId (Some requester) (set_status active d)]> (devices w)).
  { unfold w'. by rewrite Hrun. }
  assert (Hj' : active_for p w' j).
  { destruct Hact as (x & Hx & Hpx & Hsx). exists x.
    rewrite Hw', lookup_insert_ne by done. by repeat split. }
  assert (Hid' : active_for p w' id).
  { eexists. rewrite Hw', lookup_insert_eq. split; [reflexivity|]. by split. }
  split; [exact Hj'|]. split; [exact Hid'|].
  intros Hex. apply Hj. by apply Hex.
Qed.

(** X23. [setInactiveDevice] after [setActiveDevice] is not an undo.
    The device ends inactive and its [_id] is gone from the requester's
    [activeDevices], but the requester stays its owner, and every other
    entry of the list is kept. *)
Theorem activate_then_deactivate (requester : ObjectId) (id : string) (w : World)
    (u : User) (d : Device) :
  id ≠ "" →
  users w !! requester = Some u →
  devices w !! id = Some d →
  let w1 := (setActiveDevice requester id w).2 in
  let w2 := (setInactiveDevice requester id w1).2 in
  (setInactiveDevice requester id w1).1 = Json 200 (set_as_inactive (deviceId d)) ∧
  devices w2 = <[id := set_userId (Some requester) (set_status inactive d)]> (devices w) ∧
  (∃ u2, users w2 = <[requester := u2]> (users w) ∧
         activeDevice u2 = activeDevice u ∧
         activeDevices u2 = filter (λ i, i ≠ _id d) (activeDevices u)).
Proof.
  intros Hid Hu Hd w1 w2.
  destruct (setActiveDevice_run requester id w u d Hid Hu Hd)
    as (w1' & Hrun & Hdev & Husers & _).
  assert (w1 = w1') as Hw1 by (unfold w1; by rewrite Hrun).
  unfold w2. rewrite Hw1. clear w1 w2 Hw1 Hrun.
  assert (Hu1 := f_equal (λ m, m !! requester) Husers).
  assert (Hd1 := f_equal (λ m, m !! id) Hdev).
  cbv beta in Hu1, Hd1. rewrite lookup_insert_eq in Hu1.
  rewrite lookup_insert_eq in Hd1.
  assert (Hfilter : ∀ l : list ObjectId,
            filter (λ i, hexString i ≠ hexString (_id d)) l
            = filter (λ i, i ≠ _id d) l).
  { intros l. apply list_filter_iff. intros i. split; [congruence|].
    intros Hne Heq. by apply Hne, hexString_inj. }
  unfold setInactiveDevice.
  destruct (String.eqb_spec id "") as [|_]; [contradiction|].
  rewrite Hu1, Hd1. cbv zeta. cbn [fst snd]. split; [reflexivity|]. split.
  - cbn [devices with_users with_devices]. rewrite Hdev.
    apply map_eq. intros i. destruct (decide (id = i)) as [<-|Hne].
    + by rewrite lookup_alter_eq, !lookup_insert_eq.
    + by rewrite lookup_alter_ne, !lookup_insert_ne.
  - eexists. split; [|split].
    + cbn [users with_users with_devices]. rewrite Husers.
      apply map_eq. intros i. destruct (decide (requester = i)) as [<-|Hne].
      * rewrite lookup_alter_eq, !lookup_insert_eq. reflexivity.
      * by rewrite lookup_alter_ne, !lookup_insert_ne.
    + reflexivity.
    + cbn [activeDevices set_activeDevices _id set_userId set_status].
      rewrite Hfilter. destruct (decide (_id d ∈ activeDevices u)); [reflexivity|].
      rewrite filter_app, filter_cons_False, filter_nil, app_nil_r; [reflexivity|].
      by intros Hne.
Qed.

Lemma set_activeDevice_same (user : User) :
  activeDevice user = None → set_activeDevice None user = user.
Proof. destruct user as [a l]. by intros [= ->]. Qed.

(** What a successful [deleteDevice] leaves. *)
Lemma deleteDevice_run (id : string) (w : World) (d : Device) :
  id ≠ "" → devices w !! id = Some d →
  ∃ m w', deleteDevice id w = (Json 200 m, w') ∧
    devices w' = delete id (devices w) ∧
    (∀ o user, users w !! o = Some user →
       users w' !! o
       = Some (if decide (userId d = Some o ∧ activeDevice user = Some (_id d))
               then set_activeDevice None user else user)) ∧
    (∀ o, activeDevices <$> users w' !! o = activeDevices <$> users w !! o) ∧
    healthData w' = healthData w ∧ sleepData w' = sleepData w ∧
    presenceState w' = presenceState w.
Proof.
  intros Hid Hd. unfold deleteDevice.
  destruct (String.eqb_spec id "") as [|_]; [contradiction|].
  rewrite Hd. cbv zeta. eexists _, _. split; [reflexivity|].
  assert (Hrest : healthData (clear_pointer d w) = healthData w ∧
                  sleepData (clear_pointer d w) = sleepData w ∧
                  presenceState (clear_pointer d w) = presenceState w ∧
                  devices (clear_pointer d w) = devices w).
  { unfold clear_pointer. destruct (userId d) as [o|]; [|done].
    destruct (users w !! o); [|done]. by destruct (String.eqb _ _). }
  destruct Hrest as (Hh & Hs & Hp & Hdev).
  cbn [devices users healthData sleepData presenceState with_devices].
  rewrite Hh, Hs, Hp, Hdev. split; [reflexivity|].
  split; [|split; [|done]].
  - intros o user Ho. unfold clear_pointer.
    destruct (userId d) as [owner|] eqn:Howner.
    + destruct (users w !! owner) as [x|] eqn:Hx.
      * destruct (String.eqb_spec (id_string (activeDevice x)) (hexString (_id d)))
          as [Heq|Hne].
        -- cbn [users with_users]. destruct (decide (owner = o)) as [->|Hoo].
           ++ rewrite lookup_alter_eq, Ho. cbn [fmap option_fmap option_map].
              assert (x = user) as -> by congruence.
              destruct (activeDevice user) as [a|] eqn:Ha.
              ** cbn [id_string] in Heq. apply hexString_inj in Heq as ->.
                 by rewrite decide_True.
              ** rewrite decide_False by (intros [_ ?]; discriminate).
                 by rewrite set_activeDevice_same.
           ++ rewrite lookup_alter_ne, Ho by done.
              rewrite decide_False; [done|]. intros [? _]. congruence.
        -- rewrite Ho. rewrite decide_False; [done|].
           intros [[= ->] Ha]. assert (x = user) as -> by congruence.
           rewrite Ha in Hne. by apply Hne.
      * rewrite Ho. rewrite decide_False; [done|].
        intros [[= ->] _]. congruence.
    + rewrite Ho. rewrite decide_False; [done|]. by intros [? _].
  - intros o. unfold clear_pointer.
    destruct (userId d) as [owner|]; [|done].
    destruct (users w !! owner) as [x|] eqn:Hx; [|done].
    destruct (String.eqb _ _); [|done].
    cbn [users with_users]. destruct (decide (owner = o)) as [->|Hoo].
    + rewrite lookup_alter_eq. by destruct (users w !! o).
    + by rewrite lookup_alter_ne.
Qed.

(** X24. [deleteDevice].  Whenever the device exists it is removed,
    whoever asks; of the users only its owner can change, whose
    [activeDevice] pointer is cleared exactly when it points to the
    device; no user's [activeDevices] list is touched, so an entry for
    the deleted device stays, and the stored records and trackers of the
    device stay as well.  Every other answer changes nothing. *)
Theorem delete_clears_the_pointer_only (id : string) (w : World) :
  (∀ d, id ≠ "" → devices w !! id = Some d →
     ∃ m w', deleteDevice id w = (Json 200 m, w') ∧
       devices w' = delete id (devices w) ∧
       (∀ o user, users w !! o = Some user →
          users w' !! o
          = Some (if decide (userId d = Some o ∧ activeDevice user = Some (_id d))
                  then set_activeDevice None user else user)) ∧
       (∀ o, activeDevices <$> users w' !! o = activeDevices <$> users w !! o) ∧
       healthData w' = healthData w ∧ sleepData w' = sleepData w ∧
       presenceState w' = presenceState w) ∧
  (∀ code m w', deleteDevice id w = (Json code m, w') → code ≠ 200 → w' = w).
Proof.
  split.
  - intros d. apply deleteDevice_run.
  - intros code m w'. unfold deleteDevice.
    destruct (String.eqb id ""); [by intros [= <- <- <-]|].
    destruct (devices w !! id); [|by intros [= <- <- <-]].
    cbv zeta. intros [= <- _ _]. congruence.
Qed.

(** X25. Activation, then deletion.  A successful activation of a
    device whose owner exists points the owner's [activeDevice] to the
    device; deleting the device afterwards clears that pointer, and the
    active-device query of the profile answers [null]. *)
Theorem delete_after_activation (now : Z) (id pid : string) (w : World)
    (d : Device) (target o : ObjectId) (user : User) :
  id ≠ "" →
  devices w !! id = Some d →
  other_profile d pid = None →
  castObjectId pid = Some target →
  userId d = Some o →
  users w !! o = Some user →
  let w1 := (activate now id pid w).2 in
  let w2 := (deleteDevice id w1).2 in
  activeDevice <$> users w1 !! o = Some (Some (_id d)) ∧
  activeDevice <$> users w2 !! o = Some None ∧
  devices w2 !! id = None ∧
  active_device pid w2 = Some None.
Proof.
  intros Hid Hd Ho Hc Howner Huser w1 w2.
  destruct (activate_succeeds now _ _ _ _ _ Hd Ho Hc) as [m Hrun].
  assert (Hw1 : w1 = point_user d (save_activated id d target now
                                     (deactivate_profile target w)))
    by (unfold w1; by rewrite Hrun).
  assert (Hu1 : users w1 !! o = Some (set_activeDevice (Some (_id d)) user)).
  { rewrite Hw1. unfold point_user. rewrite Howner. cbn [users with_users].
    rewrite lookup_alter_eq. change (users (save_activated _ _ _ _ _)) with (users w).
    by rewrite Huser. }
  assert (Hd1 : ∃ d1, devices w1 !! id = Some d1 ∧ _id d1 = _id d ∧ userId d1 = Some o).
  { rewrite Hw1, devices_after_activation, decide_True, Hd by done.
    eexists. split; [reflexivity|]. rewrite <- Howner.
    unfold write, assign, deactivated. split; by repeat (case_decide || case_match). }
  destruct Hd1 as (d1 & Hd1 & Hsame & Hown1).
  destruct (deleteDevice_run id w1 d1 Hid Hd1)
    as (m2 & w2' & Hrun2 & Hdev2 & Husers2 & _).
  assert (w2 = w2') as -> by (unfold w2; by rewrite Hrun2).
  split; [by rewrite Hu1|]. split; [|split].
  - rewrite (Husers2 o _ Hu1), decide_True; [reflexivity|].
    split; [exact Hown1|]. cbn [activeDevice set_activeDevice]. by rewrite Hsame.
  - rewrite Hdev2. apply lookup_delete_eq.
  - apply (active_device_cast pid w2' target Hc). intros i (x & Hx & Hpx & Hsx).
    rewrite Hdev2 in Hx. destruct (decide (i = id)) as [->|Hne].
    + by rewrite lookup_delete_eq in Hx.
    + rewrite lookup_delete_ne in Hx by done. apply Hne.
      apply (activate_at_most_one now id pid w w1 m target i); [|exact Hc|].
      * unfold w1. by rewrite Hrun.
      * by exists x.
Qed.

(** What a successful [setInactiveDevice] leaves. *)
Lemma setInactiveDevice_run (requester : ObjectId) (id : string) (w : World)
    (u : User) (d : Device) :
  id ≠ "" → users w !! requester = Some u → devices w !! id = Some d →
  ∃ w', setInactiveDevice requester id w = (Json 200 (set_as_inactive (deviceId d)), w') ∧
        devices w' = <[id := set_status inactive d]> (devices w) ∧
        users w'
        = <[requester := set_activeDevices
                           (filter (λ i, hexString i ≠ hexString (_id d)) (activeDevices u))
                           u]> (users w).
Proof.
  intros Hid Hu Hd. unfold setInactiveDevice.
  destruct (String.eqb_spec id "") as [|_]; [contradiction|].
  rewrite Hu, Hd. cbv zeta. eexists. split; [reflexivity|].
  cbn [devices users with_users with_devices]. split.
  - apply map_eq. intros i. destruct (decide (id = i)) as [<-|Hne].
    + by rewrite lookup_alter_eq, lookup_insert_eq, Hd.
    + by rewrite lookup_alter_ne, lookup_insert_ne.
  - apply map_eq. intros i. destruct (decide (requester = i)) as [<-|Hne].
    + by rewrite lookup_alter_eq, lookup_insert_eq, Hu.
    + by rewrite lookup_alter_ne, lookup_insert_ne.
Qed.

(** X26. Activation, then [setInactiveDevice].  The device ends
    inactive and the active-device query of the profile answers [null],
    but the owner's [activeDevice] pointer, which the activation set, is
    not cleared: it still names the device, whoever deactivated it. *)
Theorem deactivation_keeps_the_pointer (now : Z) (id pid : string) (w : World)
    (d : Device) (target o requester : ObjectId) (user u : User) :
  id ≠ "" →
  devices w !! id = Some d →
  other_profile d pid = None →
  castObjectId pid = Some target →
  userId d = Some o →
  users w !! o = Some user →
  users w !! requester = Some u →
  let w1 := (activate now id pid w).2 in
  let w2 := (setInactiveDevice requester id w1).2 in
  status <$> devices w2 !! id = Some inactive ∧
  activeDevice <$> users w2 !! o = Some (Some (_id d)) ∧
  active_device pid w2 = Some None.
Proof.
  intros Hid Hd Ho Hc Howner Huser Hreq w1 w2.
  destruct (activate_succeeds now _ _ _ _ _ Hd Ho Hc) as [m Hrun].
  assert (Hw1 : w1 = point_user d (save_activated id d target now
                                     (deactivate_profile target w)))
    by (unfold w1; by rewrite Hrun).
  assert (Husers1 : users w1 = alter (set_activeDevice (Some (_id d))) o (users w)).
  { rewrite Hw1. unfold point_user. by rewrite Howner. }
  assert (Hd1 : ∃ d1, devices w1 !! id = Some d1 ∧ _id d1 = _id d).
  { rewrite Hw1, devices_after_activation, decide_True, Hd by done.
    eexists. split; [reflexivity|].
    unfold write, assign, deactivated. by repeat (case_decide || case_match). }
  destruct Hd1 as (d1 & Hd1 & Hsame).
  assert (Hreq1 : ∃ u1, users w1 !! requester = Some u1).
  { rewrite Husers1. destruct (decide (o = requester)) as [<-|Hne].
    - rewrite lookup_alter_eq, Huser. by eexists.
    - rewrite lookup_alter_ne, Hreq by done. by eexists. }
  destruct Hreq1 as (u1 & Hu1).
  destruct (setInactiveDevice_run requester id w1 u1 d1 Hid Hu1 Hd1)
    as (w2' & Hrun2 & Hdev2 & Husers2).
  assert (w2 = w2') as -> by (unfold w2; by rewrite Hrun2).
  split; [|split].
  - by rewrite Hdev2, lookup_insert_eq.
  - rewrite Husers2. destruct (decide (requester = o)) as [->|Hne].
    + rewrite lookup_insert_eq. cbn [fmap option_fmap option_map].
      cbn [activeDevice set_activeDevices].
      rewrite Husers1, lookup_alter_eq, Huser in Hu1. by injection Hu1 as <-.
    + rewrite lookup_insert_ne, Husers1, lookup_alter_eq, Huser by done. reflexivity.
  - apply (active_device_cast pid w2' target Hc). intros i (x & Hx & Hpx & Hsx).
    rewrite Hdev2 in Hx. destruct (decide (id = i)) as [<-|Hne].
    + rewrite lookup_insert_eq in Hx. by injection Hx as <-.
    + rewrite lookup_insert_ne in Hx by done. apply Hne. symmetry.
      apply (activate_at_most_one now id pid w w1 m target i); [|exact Hc|].
      * unfold w1. by rewrite Hrun.
      * by exists x.
Qed.

End MoreControllerProperties.

(** User [8], who does not own device [A], sets it active. *)
Lemma activate_by_any_user_witness :
  ∃ w', setActiveDevice (B := hex_ids) (oid 8) "A" two_devices
        = (Json 200 (set_as_active "A"), w') ∧
        userId (B := hex_ids) <$> devices w' !! "A" = Some (Some (oid 8)) ∧
        status (B := hex_ids) <$> devices w' !! "A" = Some active.
Proof.
  destruct (proj1 (activate_by_any_user (B := hex_ids) (oid 8) "A" two_devices)
              no_user device_A)
    as (w' & Hrun & Hdev & _);
    [discriminate | vm_compute; reflexivity | vm_compute; reflexivity | ].
  exists w'. split; [exact Hrun|]. rewrite Hdev, lookup_insert_eq. by split.
Defined.

(** Devices [A] and [B] are activated on profile [0x5] in turn, which
    leaves [B] active and [A] bound to the profile; then [A] is set
    active through the controller. *)
Lemma second_active_device_witness :
  let w0 : @World hex_ids := (activate 100 "A" "0x5" two_devices).2 in
  let w1 : @World hex_ids := (activate 101 "B" "0x5" w0).2 in
  let w2 : @World hex_ids := (setActiveDevice (oid 7) "A" w1).2 in
  (status (B := hex_ids) <$> devices w1 !! "A") = Some inactive ∧
  active_for (oid 5) w2 "A" ∧ active_for (oid 5) w2 "B".
Proof.
  intros w0 w1 w2. split; [vm_compute; reflexivity|].
  destruct (second_active_device (B := hex_ids) (oid 7) "A" "B" w1
              {| activeDevice := Some (oid 1); activeDevices := [] |}
              {| _id := oid 1; deviceId := "A"; deviceType := "band"; status := inactive;
                 profileId := Some (oid 5); userId := Some (oid 7);
                 lastActiveAt := Some 100%Z |}
              (oid 5))
    as (HB & HA & _);
    [discriminate | vm_compute; reflexivity | vm_compute; reflexivity | reflexivity
    | discriminate | | by split].
  exists {| _id := oid 2; deviceId := "B"; deviceType := "mat"; status := active;
            profileId := Some (oid 5); userId := Some (oid 8);
            lastActiveAt := Some 101%Z |}.
  split; [vm_compute; reflexivity|]. by split.
Defined.

(** User [8] sets device [A] active, then inactive. *)
Lemma activate_then_deactivate_witness :
  let w1 : @World hex_ids := (setActiveDevice (oid 8) "A" two_devices).2 in
  let w2 : @World hex_ids := (setInactiveDevice (oid 8) "A" w1).2 in
  userId (B := hex_ids) <$> devices w2 !! "A" = Some (Some (oid 8)) ∧
  status (B := hex_ids) <$> devices w2 !! "A" = Some inactive.
Proof.
  intros w1 w2.
  destruct (activate_then_deactivate (B := hex_ids) (oid 8) "A" two_devices
              no_user device_A)
    as (_ & Hdev & _);
    [discriminate | vm_compute; reflexivity | vm_compute; reflexivity | ].
  fold w1 w2 in Hdev. rewrite Hdev, lookup_insert_eq. by split.
Defined.

(** Device [A] is deleted after its activation. *)
Lemma delete_clears_the_pointer_only_witness :
  let w1 : @World hex_ids := (activate 100 "A" "0x5" two_devices).2 in
  activeDevice (B := hex_ids) <$> users w1 !! oid 7 = Some (Some (oid 1)) ∧
  ∃ m w2, deleteDevice (B := hex_ids) "A" w1 = (Json 200 m, w2) ∧
          devices w2 !! "A" = None ∧
          activeDevice (B := hex_ids) <$> users w2 !! oid 7 = Some None.
Proof.
  intros w1. split; [vm_compute; reflexivity|].
  destruct (proj1 (delete_clears_the_pointer_only (B := hex_ids) "A" w1)
              {| _id := oid 1; deviceId := "A"; deviceType := "band"; status := active;
                 profileId := Some (oid 5); userId := Some (oid 7);
                 lastActiveAt := Some 100%Z |})
    as (m & w2 & Hrun & Hdev & Husers & _);
    [discriminate | vm_compute; reflexivity | ].
  exists m, w2. split; [exact Hrun|]. split.
  - rewrite Hdev. apply lookup_delete_eq.
  - rewrite (Husers (oid 7) {| activeDevice := Some (oid 1); activeDevices := [] |});
      [reflexivity | vm_compute; reflexivity].
Defined.

Lemma delete_after_activation_witness :
  let w1 : @World hex_ids := (activate 100 "A" "0x5" two_devices).2 in
  let w2 : @World hex_ids := (deleteDevice "A" w1).2 in
  activeDevice (B := hex_ids) <$> users w1 !! oid 7 = Some (Some (oid 1)) ∧
  activeDevice (B := hex_ids) <$> users w2 !! oid 7 = Some None ∧
  devices w2 !! "A" = None ∧
  active_device "0x5" w2 = Some None.
Proof.
  apply (delete_after_activation (B := hex_ids) 100 "A" "0x5" two_devices device_A
           (oid 5) (oid 7) no_user);
    [discriminate | vm_compute; reflexivity | reflexivity | reflexivity | reflexivity
    | vm_compute; reflexivity].
Defined.

(** Device [A] is activated, then set inactive by user [8]. *)
Lemma deactivation_keeps_the_pointer_witness :
  let w1 : @World hex_ids := (activate 100 "A" "0x5" two_devices).2 in
  let w2 : @World hex_ids := (setInactiveDevice (oid 8) "A" w1).2 in
  status (B := hex_ids) <$> devices w2 !! "A" = Some inactive ∧
  activeDevice (B := hex_ids) <$> users w2 !! oid 7 = Some (Some (oid 1)) ∧
  active_device "0x5" w2 = Some None.
Proof.
  apply (deactivation_keeps_the_pointer (B := hex_ids) 100 "A" "0x5" two_devices device_A
           (oid 5) (oid 7) (oid 8) no_user no_user);
    [discriminate | vm_compute; reflexivity | reflexivity | reflexivity | reflexivity
    | vm_compute; reflexivity | vm_compute; reflexivity].
Defined.

(** ** Identifiers and the availability lookup *)

Section MoreIdentifierProperties.
Context {B : Bson}.

Ltac each_char c :=
  destruct c as [[] [] [] [] [] [] [] []]; try reflexivity; try discriminate.

Lemma is_space_upper (c : ascii) : is_space (upper_char c) = is_space c.
Proof. each_char c. Qed.

Lemma upper_upper (c : ascii) : upper_char (upper_char c) = upper_char c.
Proof. each_char c. Qed.

Lemma is_digit_upper (c : ascii) : is_digit (upper_char c) = is_digit c.
Proof. each_char c. Qed.

Lemma is_hex_upper (c : ascii) : is_hex (upper_char c) = is_hex c.
Proof. each_char c. Qed.

Lemma dash_upper (c : ascii) : Ascii.eqb "-" (upper_char c) = Ascii.eqb "-" c.
Proof. each_char c. Qed.

Lemma digit_plain (c : ascii) :
  is_digit c = true → is_space c = false ∧ c ≠ "/"%char ∧ c ≠ "h"%char.
Proof. each_char c; intros _; by repeat split. Qed.

Lemma hex_plain (c : ascii) : is_hex c = true → is_space c = false ∧ c ≠ "/"%char.
Proof. each_char c; intros _; by repeat split. Qed.

Lemma dash_plain (c : ascii) :
  Ascii.eqb "-" c = true → is_space c = false ∧ c ≠ "/"%char.
Proof. each_char c; intros _; by repeat split. Qed.

Lemma toUpperCase_chars (s : string) :
  list_ascii_of_string (toUpperCase s) = upper_char <$> list_ascii_of_string s.
Proof.
  induction s as [|c s IH]; [reflexivity|].
  cbn [toUpperCase list_ascii_of_string]. by rewrite IH.
Qed.

Lemma forallb_fmap {A C} (P : C → bool) (f : A → C) (l : list A) :
  forallb P (f <$> l) = forallb (λ x, P (f x)) l.
Proof. induction l as [|x l IH]; [reflexivity|]. cbn. by rewrite IH. Qed.

Lemma forallb_ext' {A} (P Q : A → bool) (l : list A) :
  (∀ x, P x = Q x) → forallb P l = forallb Q l.
Proof. intros H. induction l as [|x l IH]; [reflexivity|]. cbn. by rewrite H, IH. Qed.

(** The pattern does not tell upper case from lower case. *)
Lemma ID_RX_upper (s : string) : ID_RX (toUpperCase s) = ID_RX s.
Proof.
  unfold ID_RX. cbv zeta. rewrite toUpperCase_chars, length_fmap.
  rewrite <- !fmap_take, <- !fmap_drop, <- !fmap_take, !forallb_fmap.
  rewrite (forallb_ext' _ _ _ is_digit_upper), (forallb_ext' _ _ _ dash_upper),
    (forallb_ext' _ _ _ is_hex_upper).
  reflexivity.
Qed.

Lemma trimStart_upper (s : string) :
  trimStart (toUpperCase s) = toUpperCase (trimStart s).
Proof.
  induction s as [|c s IH]; [reflexivity|].
  cbn [toUpperCase trimStart]. rewrite is_space_upper.
  by destruct (is_space c).
Qed.

Lemma trimEnd_upper (s : string) :
  trimEnd (toUpperCase s) = toUpperCase (trimEnd s).
Proof.
  induction s as [|c s IH]; [reflexivity|].
  cbn [toUpperCase trimEnd]. rewrite IH, is_space_upper.
  destruct (trimEnd s); cbn [toUpperCase]; [by destruct (is_space c)|reflexivity].
Qed.

Lemma toUpperCase_idem (s : string) : toUpperCase (toUpperCase s) = toUpperCase s.
Proof.
  induction s as [|c s IH]; [reflexivity|].
  cbn [toUpperCase]. by rewrite upper_upper, IH.
Qed.

Lemma trimEnd_idem (s : string) : trimEnd (trimEnd s) = trimEnd s.
Proof.
  induction s as [|c s IH]; [reflexivity|]. cbn [trimEnd].
  destruct (trimEnd s) as [|a r] eqn:Hr.
  - destruct (is_space c) eqn:Hc; [reflexivity|]. cbn [trimEnd]. by rewrite Hc.
  - cbn [trimEnd]. cbn [trimEnd] in IH. by rewrite IH.
Qed.

Lemma trimStart_head (s : string) :
  trimStart s = "" ∨ ∃ c r, trimStart s = String c r ∧ is_space c = false.
Proof.
  induction s as [|c s IH]; [by left|]. cbn [trimStart].
  destruct (is_space c) eqn:Hc; [exact IH|]. right. by exists c, s.
Qed.

Lemma trimStart_trimEnd (c : ascii) (r : string) :
  is_space c = false → trimStart (trimEnd (String c r)) = trimEnd (String c r).
Proof.
  intros Hc. cbn [trimEnd]. destruct (trimEnd r); rewrite ?Hc; cbn [trimStart];
    by rewrite Hc.
Qed.

Lemma trim_idem (s : string) : trim (trim s) = trim s.
Proof.
  unfold trim. destruct (trimStart_head s) as [->|(c & r & -> & Hc)]; [reflexivity|].
  by rewrite (trimStart_trimEnd c r Hc), trimEnd_idem.
Qed.

Lemma trim_upper (s : string) : trim (toUpperCase s) = toUpperCase (trim s).
Proof. unfold trim. by rewrite trimStart_upper, trimEnd_upper. Qed.

Lemma normalize_id_idem (s : string) : normalize_id (normalize_id s) = normalize_id s.
Proof.
  unfold normalize_id. by rewrite trim_upper, toUpperCase_idem, trim_idem.
Qed.

Lemma chars_no_slash (s : string) :
  Forall (λ c, c ≠ "/"%char) (list_ascii_of_string s) → includes "/" s = false.
Proof.
  induction s as [|c s IH]; [reflexivity|]. cbn [list_ascii_of_string].
  intros Hall. apply Forall_cons in Hall as [Hc Hall]. cbn [includes String.prefix].
  rewrite (IH Hall), orb_false_r. destruct (ascii_dec "/" c); [by subst c|reflexivity].
Qed.

Lemma chars_trim (s : string) :
  Forall (λ c, is_space c = false) (list_ascii_of_string s) → trim s = s.
Proof.
  intros Hall. unfold trim.
  assert (Hstart : trimStart s = s).
  { destruct s as [|c s]; [reflexivity|]. cbn [list_ascii_of_string] in Hall.
    apply Forall_cons in Hall as [Hc _]. cbn [trimStart]. by rewrite Hc. }
  rewrite Hstart. clear Hstart.
  induction s as [|c s IH]; [reflexivity|]. cbn [list_ascii_of_string] in Hall.
  apply Forall_cons in Hall as [Hc Hall]. cbn [trimEnd]. rewrite (IH Hall), Hc.
  by destruct s.
Qed.

(** The characters of a string the pattern accepts. *)
Lemma ID_RX_chars (s : string) :
  ID_RX s = true →
  length (list_ascii_of_string s) = 17 ∧
  Forall (λ c, is_space c = false ∧ c ≠ "/"%char) (list_ascii_of_string s) ∧
  ∃ c r, s = String c r ∧ is_digit c = true.
Proof.
  unfold ID_RX. cbv zeta. intros H.
  apply andb_prop in H as [H Hhex]. apply andb_prop in H as [H Hdash].
  apply andb_prop in H as [Hlen Hdig]. apply Nat.eqb_eq in Hlen.
  split; [exact Hlen|]. split.
  - rewrite <- (take_drop 4 (list_ascii_of_string s)).
    rewrite <- (take_drop 1 (drop 4 (list_ascii_of_string s))), drop_drop.
    rewrite !Forall_app. repeat split.
    + apply Forall_forall. intros c Hin. rewrite forallb_forall in Hdig.
      apply list_elem_of_In, Hdig, digit_plain in Hin. tauto.
    + apply Forall_forall. intros c Hin. rewrite forallb_forall in Hdash.
      by apply list_elem_of_In, Hdash, dash_plain in Hin.
    + apply Forall_forall. intros c Hin. rewrite forallb_forall in Hhex.
      by apply list_elem_of_In, Hhex, hex_plain in Hin.
  - destruct s as [|c r]; [discriminate|]. exists c, r. split; [reflexivity|].
    cbn [list_ascii_of_string take forallb] in Hdig. by apply andb_prop in Hdig as [? _].
Qed.

(** X27. The identifiers [POST /add] accepts.  A [deviceId] that
    passes the pattern has nothing to trim, and what the route stores
    for it, the upper-cased id, passes the pattern again, is left as it
    is by a second normalisation, is not empty and holds no slash, and
    does not begin with [health]: its two topics reach their own branch
    of the message handler. *)
Theorem accepted_id_is_canonical (s : string) :
  ID_RX s = true →
  let id := normalize_id s in
  trim s = s ∧ ID_RX id = true ∧ normalize_id id = id ∧
  id ≠ "" ∧ includes "/" id = false ∧ String.prefix "health" id = false.
Proof.
  intros Hs id.
  destruct (ID_RX_chars s Hs) as (_ & Hchars & _).
  assert (Htrim : trim s = s).
  { apply chars_trim. eapply Forall_impl; [exact Hchars|]. by intros c [? _]. }
  assert (Hid : ID_RX id = true).
  { unfold id, normalize_id. by rewrite Htrim, ID_RX_upper. }
  destruct (ID_RX_chars id Hid) as (_ & Hchars' & c & r & Heq & Hc).
  split; [exact Htrim|]. split; [exact Hid|]. split; [apply normalize_id_idem|].
  split; [by rewrite Heq|]. split.
  - apply chars_no_slash. eapply Forall_impl; [exact Hchars'|]. by intros ? [_ ?].
  - rewrite Heq. cbn [String.prefix]. apply digit_plain in Hc as (_ & _ & Hh).
    destruct (ascii_dec "h" c); [by subst c|reflexivity].
Qed.

(** X28. The availability lookup.  [GET /public/available] answers for
    a query what [validateDeviceId] answers for the trimmed, upper-cased
    query, and what it answers itself for that one: it does not tell an
    id from one that differs in case or in surrounding white space; it
    refuses exactly the queries that are white space only; and after a
    successful [setActiveDevice] on a device whose id is in normal form
    it reports the device as existing and assigned. *)
Theorem available_ignores_case_and_space (query : string) (w : World) :
  available query w = validateDeviceId (normalize_id query) w ∧
  available (normalize_id query) w = available query w ∧
  (available query w = inl (Json 400 "deviceId required") ↔ normalize_id query = "") ∧
  (∀ requester u d, query ≠ "" → normalize_id query = query →
     users w !! requester = Some u → devices w !! query = Some d →
     available query (setActiveDevice requester query w).2 = inr (true, true)).
Proof.
  split; [reflexivity|].
  unfold available. split; [by rewrite normalize_id_idem|]. split.
  - cbv zeta. destruct (String.eqb_spec (normalize_id query) "").
    + by split.
    + by split.
  - intros requester u d Hq Hnorm Hu Hd. rewrite Hnorm.
    destruct (setActiveDevice_run requester query w u d Hq Hu Hd)
      as (w' & Hrun & Hdev & _).
    rewrite Hrun. cbn [snd]. cbv zeta.
    destruct (String.eqb_spec query "") as [|_]; [contradiction|].
    rewrite Hdev, lookup_insert_eq. reflexivity.
Qed.

End MoreIdentifierProperties.

(** An id in lower case. *)
Lemma accepted_id_is_canonical_witness :
  let id := normalize_id "1234-abcdef012345" in
  id = "1234-ABCDEF012345" ∧ ID_RX id = true ∧ normalize_id id = id ∧
  includes "/" id = false ∧ String.prefix "health" id = false.
Proof.
  intros id.
  destruct (accepted_id_is_canonical "1234-abcdef012345" eq_refl)
    as (_ & Hrx & Hidem & _ & Hslash & Hhealth).
  split; [reflexivity|]. by repeat split.
Defined.

(** The lookup of [" a "] is the lookup of ["A"]; after user [8] has
    set device [A] active the device is reported as assigned. *)
Lemma available_ignores_case_and_space_witness :
  available (B := hex_ids) " a " two_devices = available "A" two_devices ∧
  available (B := hex_ids) "A" (setActiveDevice (oid 8) "A" two_devices).2
  = inr (true, true).
Proof.
  destruct (available_ignores_case_and_space (B := hex_ids) " a " two_devices)
    as (_ & Hsame & _ & _).
  destruct (available_ignores_case_and_space (B := hex_ids) "A" two_devices)
    as (_ & _ & _ & Hset).
  split; [symmetry; exact Hsame|].
  apply (Hset (oid 8) no_user device_A);
    [discriminate | reflexivity | vm_compute; reflexivity | vm_compute; reflexivity].
Defined.
